(** * HipChat notification module of jenkins-job-builder

    A shallow embedding of [jenkins_jobs/modules/hipchat_notif.py]: the
    class [HipChat] with its lazy credential loader [_load_global_data] and
    its translator [gen_xml], which mutates an ElementTree document in place.

    The Python code is rendered in a state-and-exception monad over a
    [world] that holds the translator instance ([self]), the document below
    [xml_parent], and a trace of the observable effects (configuration
    reads, plugin queries, log records).  Elements are addressed by paths
    into the document, which play the role of Python's object references:
    the code only ever appends children, so a path stays valid once made. *)

From Stdlib Require Import String Ascii List ZArith Lia Bool.
From stdpp Require Import base option list strings gmap.

Local Open Scope string_scope.
Local Open Scope list_scope.
Set Warnings "-register-all".

(** ** Python values held by the YAML job description *)

(** The values a hipchat option can hold: [None], a boolean, a string, or a
    list of strings (the documented shape of ['rooms']). *)
Inductive value :=
  | VNone
  | VBool (b : bool)
  | VStr (s : string)
  | VList (l : list string).

#[global] Instance value_eq_dec : EqDecision value.
Proof. solve_decision. Defined.

(** Python truthiness, as tested by [if x] and [not x]. *)
Definition truthy (v : value) : bool :=
  match v with
  | VNone => false
  | VBool b => b
  | VStr s => negb (String.eqb s "")
  | VList l => negb (bool_decide (l = []))
  end.

(** *** String helpers: [str.lower], [str.join], [str], [repr] *)

Definition ascii_lower (c : ascii) : ascii :=
  let n := nat_of_ascii c in
  if (65 <=? n)%nat && (n <=? 90)%nat then ascii_of_nat (n + 32) else c.

(** [s.lower()], on ASCII text. *)
Fixpoint lower (s : string) : string :=
  match s with
  | EmptyString => EmptyString
  | String c s' => String (ascii_lower c) (lower s')
  end.

(** [sep.join(ls)]. *)
Fixpoint join (sep : string) (ls : list string) : string :=
  match ls with
  | [] => ""
  | [x] => x
  | x :: xs => x +:+ sep +:+ join sep xs
  end.

(** The one-character strings a Python string iterates over. *)
Fixpoint chars (s : string) : list string :=
  match s with
  | EmptyString => []
  | String c s' => String c "" :: chars s'
  end.

Definition dquote : ascii := ascii_of_nat 34.
Definition squote : ascii := ascii_of_nat 39.
Definition backslash : ascii := ascii_of_nat 92.

Fixpoint contains_char (c : ascii) (s : string) : bool :=
  match s with
  | EmptyString => false
  | String d s' => Ascii.eqb c d || contains_char c s'
  end.

Definition hex_digit (n : nat) : ascii :=
  if (n <? 10)%nat then ascii_of_nat (48 + n) else ascii_of_nat (87 + n).

(** One character of [repr] of a string whose delimiter is [q]. *)
Definition repr_char (q c : ascii) : string :=
  let n := nat_of_ascii c in
  if Ascii.eqb c q || Ascii.eqb c backslash then String backslash (String c "")
  else if (n =? 9)%nat then String backslash "t"
  else if (n =? 10)%nat then String backslash "n"
  else if (n =? 13)%nat then String backslash "r"
  else if (n <? 32)%nat || (n =? 127)%nat then
    String backslash
      (String "x" (String (hex_digit (n / 16)) (String (hex_digit (n mod 16)) "")))
  else String c "".

Fixpoint repr_body (q : ascii) (s : string) : string :=
  match s with
  | EmptyString => ""
  | String c s' => repr_char q c +:+ repr_body q s'
  end.

(** [repr(s)] for a string of printable or ASCII characters: single quotes
    unless the text has a single quote and no double quote. *)
Definition repr_str (s : string) : string :=
  let q := if contains_char squote s && negb (contains_char dquote s)
           then dquote else squote in
  String q (repr_body q s +:+ String q "").

(** [str(v)].  A list prints as the [repr] of its items. *)
Definition py_str (v : value) : string :=
  match v with
  | VNone => "None"
  | VBool true => "True"
  | VBool false => "False"
  | VStr s => s
  | VList l => "[" +:+ join ", " (repr_str <$> l) +:+ "]"
  end.

(** ** ElementTree documents *)

(** An [Element]: its tag, its [text] (Python's [None] until assigned, and
    whatever object is assigned afterwards) and its children in order. *)
Inductive element := Element {
  tag : string;
  text : value;
  children : list element
}.

(** A reference to an element: the child indices leading to it from
    [xml_parent]. *)
Definition path := list nat.

Definition with_text (v : value) (e : element) : element :=
  Element (tag e) v (children e).

Definition add_child (c : element) (e : element) : element :=
  Element (tag e) (text e) (children e ++ [c]).

Definition alter_child (f : element -> element) (i : nat) (e : element) : element :=
  Element (tag e) (text e) (alter f i (children e)).

(** The element a path refers to. *)
Fixpoint node_at (p : path) (e : element) : option element :=
  match p with
  | [] => Some e
  | i :: p' =>
      match children e !! i with
      | Some c => node_at p' c
      | None => None
      end
  end.

(** In-place update of the element a path refers to. *)
Fixpoint modify (p : path) (f : element -> element) (e : element) : element :=
  match p with
  | [] => f e
  | i :: p' => alter_child (modify p' f) i e
  end.

(** ** Exceptions, effects and the world *)

Inductive exn :=
  | NoSectionError
  | NoOptionError
  | JenkinsJobsException
  | YAMLFormatError
  | TypeError
  | AttributeError.

#[global] Instance exn_eq_dec : EqDecision exn.
Proof. solve_decision. Defined.

(** How a call ends: it returns, it raises an exception that the caller may
    catch, or [sys.exit] ends the process. *)
Inductive outcome (A : Type) :=
  | Return (a : A)
  | Raise (e : exn)
  | Exit (code : Z).
Arguments Return {A} a.
Arguments Raise {A} e.
Arguments Exit {A} code.

(** Observable effects other than the mutation of the document. *)
Inductive event :=
  | ConfigGet (section option : string)
  | PluginInfo (name : string)
  | LogWarn (msg : string)
  | LogFatal (msg : string) (cause : exn).

(** ** The registry: global configuration and plugin information *)

(** A [ConfigParser] after parsing: the [DEFAULT] values and the sections.
    Values are taken as they come back from [get], after interpolation. *)
Record ConfigParser := {
  defaults : gmap string string;
  sections : gmap string (gmap string string)
}.

(** [config.get(section, option)]: [NoSectionError] when the section does
    not exist, [NoOptionError] when neither it nor the defaults have the
    option. *)
Definition config_lookup (c : ConfigParser) (section option : string)
  : exn + string :=
  match sections c !! section with
  | None => inl NoSectionError
  | Some sec =>
      match sec !! option with
      | Some v => inr v
      | None =>
          match defaults c !! option with
          | Some v => inr v
          | None => inl NoOptionError
          end
      end
  end.

Record Registry := {
  global_config : ConfigParser;
  get_plugin_info : string -> gmap string string
}.

(** The attributes of a [HipChat] instance.  [authToken] and [jenkinsUrl]
    start as [None]; [sendAs] does not exist until the loader assigns it
    ([None] here stands for the missing attribute). *)
Record HipChat := {
  authToken : option string;
  jenkinsUrl : option string;
  sendAs : option string;
  registry : Registry
}.

(** [HipChat.__init__]. *)
Definition HipChat_init (r : Registry) : HipChat :=
  {| authToken := None; jenkinsUrl := None; sendAs := None; registry := r |}.

Record world := {
  self : HipChat;
  xml : element;
  trace : list event
}.

Definition M (A : Type) : Type := world -> world * outcome A.

#[global] Instance M_ret : MRet M := fun A a w => (w, Return a).

#[global] Instance M_bind : MBind M := fun A B k m w =>
  match m w with
  | (w', Return a) => k a w'
  | (w', Raise e) => (w', Raise e)
  | (w', Exit c) => (w', Exit c)
  end.

Definition raise {A} (e : exn) : M A := fun w => (w, Raise e).

Definition sys_exit {A} (code : Z) : M A := fun w => (w, Exit code).

(** [try: body except ...: handler], the handler choosing what it catches. *)
Definition try_except {A} (body : M A) (handler : exn -> M A) : M A := fun w =>
  match body w with
  | (w', Raise e) => handler e w'
  | r => r
  end.

Definition emit (ev : event) : M unit := fun w =>
  ({| self := self w; xml := xml w; trace := trace w ++ [ev] |}, Return tt).

Definition get_self : M HipChat := fun w => (w, Return (self w)).

Definition put_self (s : HipChat) : M unit := fun w =>
  ({| self := s; xml := xml w; trace := trace w |}, Return tt).

Definition get_xml : M element := fun w => (w, Return (xml w)).

Definition put_xml (d : element) : M unit := fun w =>
  ({| self := self w; xml := d; trace := trace w |}, Return tt).

(** [for x in xs: body(x)]. *)
Fixpoint for_each {A} (xs : list A) (body : A -> M unit) : M unit :=
  match xs with
  | [] => mret tt
  | x :: xs' => body x;; for_each xs' body
  end.

(** *** ElementTree operations *)

Definition has_tag (t : string) (e : element) : Prop := tag e = t.

#[global] Instance has_tag_dec t e : Decision (has_tag t e).
Proof. unfold has_tag; apply _. Defined.

(** [parent.find(t)]: the first direct child tagged [t], or [None]. *)
Definition find (parent : path) (t : string) : M (option path) :=
  d ← get_xml;
  match node_at parent d with
  | Some e =>
      match list_find (has_tag t) (children e) with
      | Some (i, _) => mret (Some (parent ++ [i]))
      | None => mret None
      end
  | None => mret None
  end.

(** [XML.SubElement(parent, t)]: append a fresh child and return it. *)
Definition SubElement (parent : path) (t : string) : M path :=
  d ← get_xml;
  let i := match node_at parent d with
           | Some e => length (children e)
           | None => 0
           end in
  put_xml (modify parent (add_child (Element t VNone [])) d);;
  mret (parent ++ [i]).

(** [e.text = v]. *)
Definition set_text (e : path) (v : value) : M unit :=
  d ← get_xml;
  put_xml (modify e (with_text v) d).

(** [e.text]. *)
Definition get_text (e : path) : M value :=
  d ← get_xml;
  match node_at e d with
  | Some n => mret (text n)
  | None => mret VNone
  end.

(** [self.registry.global_config.get(section, option)]. *)
Definition config_get (section option : string) : M string :=
  s ← get_self;
  emit (ConfigGet section option);;
  match config_lookup (global_config (registry s)) section option with
  | inr v => mret v
  | inl e => raise e
  end.

(** ** Plugin versions *)

(** [pkg_resources.parse_version] and the order on what it returns belong
    to setuptools; the translator only compares two parsed versions. *)
Class VersionScheme := {
  version : Type;
  parse_version : string -> version;
  version_ge : version -> version -> bool
}.

(** ** The class [HipChat] *)

(** Truthiness of an attribute holding [None] or a string. *)
Definition truthy_attr (a : option string) : bool :=
  match a with
  | None => false
  | Some s => negb (String.eqb s "")
  end.

(** The value an attribute holds, as an element text. *)
Definition attr_value (a : option string) : value :=
  match a with
  | None => VNone
  | Some s => VStr s
  end.

(** [hipchat.get(k)] and [hipchat.get(k, d)]. *)
Definition dict_get (d : gmap string value) (k : string) : value :=
  default VNone (d !! k).

Definition dict_get_default (d : gmap string value) (k : string) (dv : value)
  : value :=
  default dv (d !! k).

(** Truthiness of a dict: it has an item. *)
Definition dict_truthy (d : gmap string value) : bool :=
  negb (bool_decide (d = ∅)).

(** [",".join(v)]: the items of a list, the characters of a string; other
    values are not iterable. *)
Definition py_join (sep : string) (v : value) : M value :=
  match v with
  | VList l => mret (VStr (join sep l))
  | VStr s => mret (VStr (join sep (chars s)))
  | VNone | VBool _ => raise TypeError
  end.

Definition set_authToken (v : option string) : M unit :=
  s ← get_self;
  put_self {| authToken := v; jenkinsUrl := jenkinsUrl s;
              sendAs := sendAs s; registry := registry s |}.

Definition set_jenkinsUrl (v : option string) : M unit :=
  s ← get_self;
  put_self {| authToken := authToken s; jenkinsUrl := v;
              sendAs := sendAs s; registry := registry s |}.

Definition set_sendAs (v : option string) : M unit :=
  s ← get_self;
  put_self {| authToken := authToken s; jenkinsUrl := jenkinsUrl s;
              sendAs := v; registry := registry s |}.

(** [self.sendAs]: reading an attribute that was never assigned raises. *)
Definition get_sendAs : M string :=
  s ← get_self;
  match sendAs s with
  | Some v => mret v
  | None => raise AttributeError
  end.

Definition fatal_msg : string :=
  "The configuration file needs a hipchat section containing authtoken:".

(** [HipChat._load_global_data]. *)
Definition _load_global_data : M unit :=
  s ← get_self;
  if negb (truthy_attr (authToken s)) then
    try_except
      (tok ← config_get "hipchat" "authtoken";
       set_authToken (Some tok);;
       if String.eqb tok "" then raise JenkinsJobsException else mret tt)
      (fun e =>
         match e with
         | NoSectionError | JenkinsJobsException =>
             emit (LogFatal fatal_msg e);;
             sys_exit 1
         | _ => raise e
         end);;
    url ← config_get "jenkins" "url";
    set_jenkinsUrl (Some url);;
    sa ← config_get "hipchat" "send-as";
    set_sendAs (Some sa)
  else mret tt.

Definition pdefhip_tag : string :=
  "jenkins.plugins.hipchat.HipChatNotifier_-HipChatJobProperty".

Definition hippub_tag : string :=
  "jenkins.plugins.hipchat.HipChatNotifier".

(** The table [yaml2xmlkeys]: source key, target tag, and the flag that
    [gen_xml] passes as [optional].  The items are listed in the order of
    the dict display, which is the order the loop visits them in. *)
Definition yaml2xmlkeys : list (string * (string * bool)) :=
  [ ("start-notify", ("startNotification", false));
    ("notify-success", ("notifySuccess", true));
    ("notify-aborted", ("notifyAborted", true));
    ("notify-not-built", ("notifyNotBuilt", true));
    ("notify-unstable", ("notifyUnstable", true));
    ("notify-failure", ("notifyFailure", true));
    ("notify-back-to-normal", ("notifyBackToNormal", true)) ].

Section Translator.
Context `{VersionScheme}.

(** The closure [translate_to_xml] of [gen_xml], over [hipchat].  As in
    every assignment below, Python evaluates the right-hand side before
    it creates the element on the left. *)
Definition translate_to_xml (hipchat : gmap string value)
    (parent : path) (source target : string) (optional : bool) : M unit :=
  if negb optional || truthy (dict_get hipchat source) then
    let t := lower (py_str (dict_get_default hipchat source (VBool false))) in
    e ← SubElement parent target;
    set_text e (VStr t)
  else mret tt.

(** [HipChat.gen_xml(parser, xml_parent, data)]; [xml_parent] is the root
    of the document of the world, and [parser] is not used. *)
Definition gen_xml (data : gmap string (gmap string value)) : M unit :=
  match data !! "hipchat" with
  | None => mret tt
  | Some hipchat =>
      if negb (dict_truthy hipchat)
         || negb (truthy (dict_get_default hipchat "enabled" (VBool true)))
      then mret tt
      else
        _load_global_data;;
        found ← find [] "properties";
        properties ← match found with
                     | Some p => mret p
                     | None => SubElement [] "properties"
                     end;
        pdefhip ← SubElement properties pdefhip_tag;
        room ← SubElement pdefhip "room";
        match hipchat !! "rooms", hipchat !! "room" with
        | Some rooms, _ =>
            t ← py_join "," rooms;
            set_text room t
        | None, Some r =>
            emit (LogWarn "'room' is deprecated, please use 'rooms'");;
            set_text room r
        | None, None => raise YAMLFormatError
        end;;
        found ← find [] "publishers";
        publishers ← match found with
                     | Some p => mret p
                     | None => SubElement [] "publishers"
                     end;
        hippub ← SubElement publishers hippub_tag;
        for_each [hippub; pdefhip] (fun xmlparent =>
          for_each yaml2xmlkeys (fun '(yamlkey, (xmlkey, xmloptional)) =>
            translate_to_xml hipchat xmlparent yamlkey xmlkey xmloptional));;
        s ← get_self;
        emit (PluginInfo "Jenkins HipChat Plugin");;
        let plugin_info := get_plugin_info (registry s) "Jenkins HipChat Plugin" in
        let v := parse_version (default "0" (plugin_info !! "version")) in
        (if version_ge v (parse_version "0.1.8") then
           s ← get_self;
           e ← SubElement hippub "buildServerUrl";
           set_text e (attr_value (jenkinsUrl s));;
           sa ← get_sendAs;
           e ← SubElement hippub "sendAs";
           set_text e (VStr sa)
         else
           s ← get_self;
           e ← SubElement hippub "jenkinsUrl";
           set_text e (attr_value (jenkinsUrl s)));;
        s ← get_self;
        e ← SubElement hippub "authToken";
        set_text e (attr_value (authToken s));;
        t ← get_text room;
        e ← SubElement hippub "room";
        set_text e t
  end.
End Translator.

(** *** Dotted release numbers

    The order of [pkg_resources] on versions made of decimal numbers
    separated by dots, such as the ones the HipChat plugin reports:
    component by component, a missing component counting as zero. *)

Definition digit_of (c : ascii) : option nat :=
  let n := nat_of_ascii c in
  if (48 <=? n)%nat && (n <=? 57)%nat then Some (n - 48) else None.

(** The numbers of a version string; [cur] is the number being read. *)
Fixpoint release_numbers (cur : option nat) (s : string) : list nat :=
  match s with
  | EmptyString => match cur with Some n => [n] | None => [] end
  | String c s' =>
      match digit_of c with
      | Some d => release_numbers (Some (10 * default 0 cur + d)) s'
      | None =>
          match cur with
          | Some n => n :: release_numbers None s'
          | None => release_numbers None s'
          end
      end
  end.

Fixpoint release_ge (a b : list nat) : bool :=
  match a, b with
  | _, [] => true
  | [], y :: b' => (y =? 0)%nat && release_ge [] b'
  | x :: a', y :: b' =>
      if (x <? y)%nat then false
      else if (y <? x)%nat then true
      else release_ge a' b'
  end.

#[global] Instance release_versions : VersionScheme := {|
  version := list nat;
  parse_version := release_numbers None;
  version_ge := release_ge
|}.

(** ** The document as the translator leaves it

    A functional account of the effect of [gen_xml], which the lemmas
    below prove equal to the effect of the code above. *)

Local Abbreviation W := Build_world.

Definition add_children (cs : list element) (e : element) : element :=
  Element (tag e) (text e) (children e ++ cs).

(** The text [translate_to_xml] computes for a source key. *)
Definition flag_text (h : gmap string value) (source : string) : value :=
  VStr (lower (py_str (dict_get_default h source (VBool false)))).

(** The fields that the table of flags contributes to a node. *)
Definition flag_field (h : gmap string value) (entry : string * (string * bool))
  : list element :=
  let '(source, (target, optional)) := entry in
  if negb optional || truthy (dict_get h source)
  then [Element target (flag_text h source) []]
  else [].

(** The target tags of a table of flags. *)
Definition targets (ks : list (string * (string * bool))) : list string :=
  (fun k => fst (snd k)) <$> ks.

Definition flag_fields (h : gmap string value)
    (ks : list (string * (string * bool))) : list element :=
  ks ≫= flag_field h.

(** Where [xml_parent.find(t)] finds the section, or where a new one goes. *)
Definition section_index (t : string) (d : element) : nat :=
  match list_find (has_tag t) (children d) with
  | Some (i, _) => i
  | None => length (children d)
  end.

(** The number of children the section has before the translator adds one. *)
Definition section_len (t : string) (d : element) : nat :=
  match list_find (has_tag t) (children d) with
  | Some (_, c) => length (children c)
  | None => 0
  end.

(** The document once the section exists. *)
Definition ensure_section (t : string) (d : element) : element :=
  match list_find (has_tag t) (children d) with
  | Some _ => d
  | None => add_child (Element t VNone []) d
  end.

(** The document with [n] as the new last child of its section [t], the
    section being created at the end when there is none. *)
Definition append_to_section (t : string) (n : element) (d : element) : element :=
  match list_find (has_tag t) (children d) with
  | Some (i, _) => alter_child (add_child n) i d
  | None => add_child (Element t VNone [n]) d
  end.

(** The children of the section tagged [t]; none when it does not exist. *)
Definition section_children (t : string) (d : element) : list element :=
  match list_find (has_tag t) (children d) with
  | Some (_, c) => children c
  | None => []
  end.

(** The first element of a list that is tagged [t]. *)
Definition first_tagged (t : string) (l : list element) : option element :=
  snd <$> list_find (has_tag t) l.

(** [e.find(t)], and the text of the child found. *)
Definition child (e : element) (t : string) : option element :=
  first_tagged t (children e).

Definition child_text (e : element) (t : string) : option value :=
  text <$> child e t.

(** The guard of [gen_xml]: the mapping has an item and its ['enabled'],
    true when missing, is truthy. *)
Definition proceeds (h : gmap string value) : bool :=
  dict_truthy h && truthy (dict_get_default h "enabled" (VBool true)).

(** The room text, or the exception that ends the translation, with the
    log records on the way. *)
Definition resolve_room (h : gmap string value) : (exn + value) * list event :=
  match h !! "rooms", h !! "room" with
  | Some (VList l), _ => (inr (VStr (join "," l)), [])
  | Some (VStr r), _ => (inr (VStr (join "," (chars r))), [])
  | Some _, _ => (inl TypeError, [])
  | None, Some r =>
      (inr r, [LogWarn "'room' is deprecated, please use 'rooms'"])
  | None, None => (inl YAMLFormatError, [])
  end.

Section Effect.
Context `{VersionScheme}.

(** Whether the reported plugin version reaches the baseline. *)
Definition new_schema (s : HipChat) : bool :=
  version_ge
    (parse_version
       (default "0"
          (get_plugin_info (registry s) "Jenkins HipChat Plugin" !! "version")))
    (parse_version "0.1.8").

Definition server_fields (s : HipChat) : list element :=
  if new_schema s
  then [Element "buildServerUrl" (attr_value (jenkinsUrl s)) [];
        Element "sendAs" (attr_value (sendAs s)) []]
  else [Element "jenkinsUrl" (attr_value (jenkinsUrl s)) []].

(** The property node and the notifier node of a finished translation. *)
Definition pdefhip_node (h : gmap string value) (room_text : value) : element :=
  Element pdefhip_tag VNone
    (Element "room" room_text [] :: flag_fields h yaml2xmlkeys).

Definition hippub_node (h : gmap string value) (s : HipChat)
    (room_text : value) : element :=
  Element hippub_tag VNone
    (flag_fields h yaml2xmlkeys ++ server_fields s
     ++ [Element "authToken" (attr_value (authToken s)) [];
         Element "room" room_text []]).

(** What [gen_xml] does after the credentials are loaded. *)
Definition translated (h : gmap string value) (w : world) : world * outcome unit :=
  let s := self w in
  match resolve_room h with
  | (inl e, evs) =>
      (W s (append_to_section "properties"
              (Element pdefhip_tag VNone [Element "room" VNone []]) (xml w))
         (trace w ++ evs),
       Raise e)
  | (inr rt, evs) =>
      let d := append_to_section "properties" (pdefhip_node h rt) (xml w) in
      let tr := (trace w ++ evs) ++ [PluginInfo "Jenkins HipChat Plugin"] in
      let done :=
        (W s (append_to_section "publishers" (hippub_node h s rt) d) tr,
         Return tt) in
      if new_schema s then
        match sendAs s with
        | Some _ => done
        | None =>
            (W s (append_to_section "publishers"
                    (Element hippub_tag VNone
                       (flag_fields h yaml2xmlkeys
                        ++ [Element "buildServerUrl"
                              (attr_value (jenkinsUrl s)) []]))
                    d) tr,
             Raise AttributeError)
        end
      else done
  end.

End Effect.

(** The property node as it is when the room is still to be resolved. *)
Definition bare_property : element :=
  Element pdefhip_tag VNone [Element "room" VNone []].

(** The loader, case by case on what the configuration holds. *)
Definition loaded (w : world) : world * outcome unit :=
  let s := self w in
  let c := global_config (registry s) in
  let tr1 := trace w ++ [ConfigGet "hipchat" "authtoken"] in
  if truthy_attr (authToken s) then (w, Return tt) else
  match config_lookup c "hipchat" "authtoken" with
  | inl e =>
      match e with
      | NoSectionError | JenkinsJobsException =>
          (W s (xml w) (tr1 ++ [LogFatal fatal_msg e]), Exit 1)
      | _ => (W s (xml w) tr1, Raise e)
      end
  | inr tok =>
      let s1 := {| authToken := Some tok; jenkinsUrl := jenkinsUrl s;
                   sendAs := sendAs s; registry := registry s |} in
      if String.eqb tok "" then
        (W s1 (xml w) (tr1 ++ [LogFatal fatal_msg JenkinsJobsException]), Exit 1)
      else
        let tr2 := tr1 ++ [ConfigGet "jenkins" "url"] in
        match config_lookup c "jenkins" "url" with
        | inl e => (W s1 (xml w) tr2, Raise e)
        | inr url =>
            let s2 := {| authToken := Some tok; jenkinsUrl := Some url;
                         sendAs := sendAs s; registry := registry s |} in
            let tr3 := tr2 ++ [ConfigGet "hipchat" "send-as"] in
            match config_lookup c "hipchat" "send-as" with
            | inl e => (W s2 (xml w) tr3, Raise e)
            | inr sa =>
                (W {| authToken := Some tok; jenkinsUrl := Some url;
                      sendAs := Some sa; registry := registry s |}
                   (xml w) tr3, Return tt)
            end
        end
  end.

(** ** Sample inputs *)

Definition sample_config : ConfigParser :=
  {| defaults := ∅;
     sections :=
       {[ "hipchat" := {[ "authtoken" := "s3cret"; "send-as" := "Jenkins" ]};
          "jenkins" := {[ "url" := "http://ci.example.org/" ]} ]} |}.

(** A registry whose HipChat plugin reports [v]. *)
Definition sample_registry (v : string) : Registry :=
  {| global_config := sample_config;
     get_plugin_info := fun _ => {[ "version" := v ]} |}.

Definition empty_project : element := Element "project" VNone [].

(** A new translator on an empty job definition. *)
Definition fresh_world (v : string) : world :=
  W (HipChat_init (sample_registry v)) empty_project [].

Definition rooms_options : gmap string value :=
  {[ "rooms" := VList ["dev"; "ops"] ]}.

Definition rooms_job : gmap string (gmap string value) :=
  {[ "hipchat" := rooms_options ]}.

Definition room_options : gmap string value :=
  {[ "room" := VStr "teamroom" ]}.

Definition room_job : gmap string (gmap string value) :=
  {[ "hipchat" := room_options ]}.

Definition enabled_options : gmap string value :=
  {[ "enabled" := VBool true ]}.

Definition enabled_job : gmap string (gmap string value) :=
  {[ "hipchat" := enabled_options ]}.

Definition both_options : gmap string value :=
  {[ "rooms" := VList ["dev"]; "room" := VStr "teamroom" ]}.

Definition both_job : gmap string (gmap string value) :=
  {[ "hipchat" := both_options ]}.

Definition empty_job : gmap string (gmap string value) :=
  {[ "hipchat" := ∅ ]}.

(** A configuration whose [hipchat] section has no [authtoken]. *)
Definition no_token_config : ConfigParser :=
  {| defaults := ∅;
     sections :=
       {[ "hipchat" := {[ "send-as" := "Jenkins" ]};
          "jenkins" := {[ "url" := "http://ci.example.org/" ]} ]} |}.

Definition no_token_world : world :=
  W (HipChat_init {| global_config := no_token_config;
                     get_plugin_info := fun _ => {[ "version" := "0.1.9" ]} |})
    empty_project [].

(** ** Further definitions: growth of the document, kinds of events *)

(** [d'] is [d] with nodes appended below the children tagged in [ts]:
    the root keeps its tag and text, each child keeps its place, its tag,
    its text and its own children as the first ones, and a child tagged
    outside [ts] is the same element. *)
Definition grows_on (ts : list string) (d d' : element) : Prop :=
  tag d' = tag d /\ text d' = text d
  /\ forall i c, children d !! i = Some c ->
       exists c', children d' !! i = Some c'
                  /\ tag c' = tag c /\ text c' = text c
                  /\ children c `prefix_of` children c'
                  /\ (tag c ∉ ts -> c' = c).

Definition is_config_get (ev : event) : bool :=
  match ev with ConfigGet _ _ => true | _ => false end.

Definition is_warning (ev : event) : bool :=
  match ev with LogWarn _ => true | _ => false end.

Definition deprecation : event :=
  LogWarn "'room' is deprecated, please use 'rooms'".

(** A new translator on an empty job definition, for a configuration and
    the plugin information the registry answers with. *)
Definition world_with (c : ConfigParser) (info : gmap string string) : world :=
  W (HipChat_init {| global_config := c; get_plugin_info := fun _ => info |})
    empty_project [].

(** A configuration whose token is blank. *)
Definition blank_token_config : ConfigParser :=
  {| defaults := ∅;
     sections :=
       {[ "hipchat" := {[ "authtoken" := ""; "send-as" := "Jenkins" ]};
          "jenkins" := {[ "url" := "http://ci.example.org/" ]} ]} |}.

(** A configuration without a [hipchat] section. *)
Definition no_hipchat_config : ConfigParser :=
  {| defaults := ∅;
     sections := {[ "jenkins" := {[ "url" := "http://ci.example.org/" ]} ]} |}.

(** A configuration without a [jenkins] section. *)
Definition no_jenkins_config : ConfigParser :=
  {| defaults := ∅;
     sections :=
       {[ "hipchat" := {[ "authtoken" := "s3cret"; "send-as" := "Jenkins" ]} ]} |}.

Definition string_rooms_options : gmap string value :=
  {[ "rooms" := VStr "ab" ]}.

Definition string_rooms_job : gmap string (gmap string value) :=
  {[ "hipchat" := string_rooms_options ]}.

Definition null_rooms_options : gmap string value :=
  {[ "rooms" := VNone; "room" := VStr "teamroom" ]}.

Definition null_rooms_job : gmap string (gmap string value) :=
  {[ "hipchat" := null_rooms_options ]}.

(** * Lemmas *)

(** ** Paths into the document *)

Section Paths.
Implicit Types (p q : path) (e d n : element) (f g : element -> element).

Lemma node_at_app p q e :
  node_at (p ++ q) e = node_at p e ≫= node_at q.
Proof.
  revert e; induction p as [|i p IH]; intros e; simpl; [done|].
  destruct (children e !! i); simpl; auto.
Qed.

Lemma modify_app p q f e :
  modify (p ++ q) f e = modify p (modify q f) e.
Proof.
  revert e; induction p as [|i p IH]; intros e; simpl; [done|].
  unfold alter_child; f_equal. apply list_alter_ext; auto.
Qed.

Lemma node_at_modify p f e n :
  node_at p e = Some n -> node_at p (modify p f e) = Some (f n).
Proof.
  revert e; induction p as [|i p IH]; intros e; simpl; [congruence|].
  destruct (children e !! i) as [c|] eqn:Hc; [|done].
  intros Hn. rewrite list_lookup_alter_eq, Hc. simpl. auto.
Qed.

Lemma modify_ext p f g e n :
  node_at p e = Some n -> f n = g n -> modify p f e = modify p g e.
Proof.
  revert e; induction p as [|i p IH]; intros e; simpl; [congruence|].
  destruct (children e !! i) as [c|] eqn:Hc; [|done].
  intros Hn Hfg. unfold alter_child; f_equal.
  apply list_alter_ext; [|done]. intros x Hx. rewrite Hc in Hx.
  injection Hx as <-. eauto.
Qed.

Lemma modify_modify p f g e :
  modify p f (modify p g e) = modify p (f ∘ g) e.
Proof.
  revert e; induction p as [|i p IH]; intros e; simpl; [done|].
  unfold alter_child; simpl. f_equal.
  rewrite list_alter_alter_eq. apply list_alter_ext; [|done].
  intros x _. apply IH.
Qed.

Lemma modify_add_children p cs1 cs2 e :
  modify p (add_children cs2) (modify p (add_children cs1) e)
  = modify p (add_children (cs1 ++ cs2)) e.
Proof.
  rewrite modify_modify. revert e; induction p as [|i p IH]; intros e; simpl.
  - unfold add_children; simpl. by rewrite <- app_assoc.
  - unfold alter_child; f_equal. apply list_alter_ext; auto.
Qed.

(** Creating a child and giving it a text appends one finished child. *)
Lemma modify_new_child p t v e n :
  node_at p e = Some n ->
  modify (p ++ [length (children n)]) (with_text v)
    (modify p (add_child (Element t VNone [])) e)
  = modify p (add_children [Element t v []]) e.
Proof.
  intros Hn. rewrite modify_app, modify_modify.
  apply (modify_ext _ _ _ _ n Hn). simpl.
  unfold alter_child, add_children, add_child; simpl. f_equal.
  rewrite alter_app_r_alt by lia. by rewrite Nat.sub_diag.
Qed.
End Paths.

Lemma add_children_nil e : add_children [] e = e.
Proof. destruct e; unfold add_children; simpl. by rewrite app_nil_r. Qed.

Lemma modify_id p f e : (forall x, f x = x) -> modify p f e = e.
Proof.
  intros Hf. revert e; induction p as [|i p IH]; intros e; simpl; [done|].
  destruct e as [t v cs]; unfold alter_child; simpl. f_equal.
  by apply list_alter_id.
Qed.

(** ** Running the ElementTree operations *)

Section Runs.
Implicit Types (s : HipChat) (d n : element) (tr : list event).

Lemma run_find t s d tr :
  find [] t (W s d tr)
  = (W s d tr, Return (match list_find (has_tag t) (children d) with
                       | Some (i, _) => Some [i]
                       | None => None
                       end)).
Proof.
  unfold find, mbind, M_bind, get_xml; simpl.
  by destruct (list_find (has_tag t) (children d)) as [[i c]|].
Qed.

Lemma run_SubElement p t s d tr n :
  node_at p d = Some n ->
  SubElement p t (W s d tr)
  = (W s (modify p (add_child (Element t VNone [])) d) tr,
     Return (p ++ [length (children n)])).
Proof. intros Hn. unfold SubElement, mbind, M_bind, get_xml; simpl. by rewrite Hn. Qed.

Lemma run_set_text p v s d tr :
  set_text p v (W s d tr) = (W s (modify p (with_text v) d) tr, Return tt).
Proof. done. Qed.

Lemma run_get_text p s d tr n :
  node_at p d = Some n -> get_text p (W s d tr) = (W s d tr, Return (text n)).
Proof. intros Hn. unfold get_text, mbind, M_bind, get_xml; simpl. by rewrite Hn. Qed.

Lemma run_bind {A B} (m : M A) (k : A -> M B) w w' a :
  m w = (w', Return a) -> (m ≫= k) w = k a w'.
Proof. intros Hm. unfold mbind, M_bind. by rewrite Hm. Qed.

Lemma run_bind_raise {A B} (m : M A) (k : A -> M B) w w' e :
  m w = (w', Raise e) -> (m ≫= k) w = (w', Raise e).
Proof. intros Hm. unfold mbind, M_bind. by rewrite Hm. Qed.

Lemma run_new_child p t v s d tr n :
  node_at p d = Some n ->
  (e ← SubElement p t; set_text e v) (W s d tr)
  = (W s (modify p (add_children [Element t v []]) d) tr, Return tt).
Proof.
  intros Hn. rewrite (run_bind _ _ _ _ _ (run_SubElement _ t s _ tr _ Hn)).
  rewrite run_set_text. by rewrite (modify_new_child _ _ _ _ _ Hn).
Qed.
End Runs.

Lemma run_translate_to_xml h p k x o s d tr n :
  node_at p d = Some n ->
  translate_to_xml h p k x o (W s d tr)
  = (W s (modify p (add_children (flag_field h (k, (x, o)))) d) tr, Return tt).
Proof.
  intros Hn. unfold translate_to_xml, flag_field.
  destruct (negb o || truthy (dict_get h k)).
  - by rewrite (run_new_child _ _ _ _ _ _ _ Hn).
  - rewrite modify_id; [done|apply add_children_nil].
Qed.

Lemma run_flags h p ks s d tr n :
  node_at p d = Some n ->
  for_each ks (fun '(yamlkey, (xmlkey, xmloptional)) =>
                 translate_to_xml h p yamlkey xmlkey xmloptional) (W s d tr)
  = (W s (modify p (add_children (flag_fields h ks)) d) tr, Return tt).
Proof.
  revert d n. induction ks as [|[k [x o]] ks IH]; intros d n Hn.
  - cbn [for_each]. rewrite modify_id; [done|apply add_children_nil].
  - cbn [for_each].
    rewrite (run_bind _ _ _ _ _ (run_translate_to_xml h p k x o s d tr n Hn)).
    erewrite IH by (by apply node_at_modify).
    rewrite modify_add_children. done.
Qed.

(** ** Sections of the job definition *)

Section Sections.
Implicit Types (t : string) (d n c : element) (f : element -> element).

Lemma ensure_section_node t d :
  exists c, node_at [section_index t d] (ensure_section t d) = Some c
            /\ tag c = t /\ length (children c) = section_len t d.
Proof.
  unfold section_index, ensure_section, section_len.
  destruct (list_find (has_tag t) (children d)) as [[i c]|] eqn:Hf; simpl.
  - apply list_find_Some in Hf as (Hi & Ht & _). rewrite Hi. eauto.
  - rewrite list_lookup_middle by done. eauto.
Qed.

Lemma append_to_section_modify t n d :
  modify [section_index t d] (add_child n) (ensure_section t d)
  = append_to_section t n d.
Proof.
  unfold section_index, ensure_section, append_to_section.
  destruct (list_find (has_tag t) (children d)) as [[i c]|] eqn:Hf; [done|].
  simpl. unfold alter_child, add_child; simpl. f_equal.
  rewrite alter_app_r_alt by lia. by rewrite Nat.sub_diag.
Qed.

Lemma section_index_lt t n d :
  section_index t d < length (children (append_to_section t n d)).
Proof.
  unfold section_index, append_to_section.
  destruct (list_find (has_tag t) (children d)) as [[i c]|] eqn:Hf; simpl.
  - apply list_find_Some in Hf as (Hi & _). rewrite length_alter.
    by eapply lookup_lt_Some.
  - rewrite length_app; simpl; lia.
Qed.

(** The appended node, through its reference. *)
Lemma node_at_appended t n d :
  node_at [section_index t d; section_len t d] (append_to_section t n d)
  = Some n.
Proof.
  unfold section_index, section_len, append_to_section.
  destruct (list_find (has_tag t) (children d)) as [[i c]|] eqn:Hf; simpl.
  - apply list_find_Some in Hf as (Hi & _).
    rewrite list_lookup_alter_eq, Hi; simpl.
    by rewrite list_lookup_middle.
  - by rewrite list_lookup_middle.
Qed.

(** Mutating the appended node through its reference. *)
Lemma modify_appended t n d f :
  modify [section_index t d; section_len t d] f (append_to_section t n d)
  = append_to_section t (f n) d.
Proof.
  unfold section_index, section_len, append_to_section.
  destruct (list_find (has_tag t) (children d)) as [[i c]|] eqn:Hf; simpl.
  - unfold alter_child; simpl. f_equal. rewrite list_alter_alter_eq.
    apply list_alter_ext; [|done]. intros x Hx; simpl.
    apply list_find_Some in Hf as (Hi & _). rewrite Hi in Hx.
    injection Hx as <-. unfold add_child; simpl. f_equal.
    rewrite alter_app_r_alt by lia. by rewrite Nat.sub_diag.
  - unfold alter_child, add_child; simpl. f_equal.
    rewrite alter_app_r_alt by lia. by rewrite Nat.sub_diag.
Qed.

Lemma list_find_tag_alter t f i (l : list element) :
  (forall x, tag (f x) = tag x) ->
  fst <$> list_find (has_tag t) (alter f i l) = fst <$> list_find (has_tag t) l.
Proof.
  intros Hf. revert i; induction l as [|x l IH]; intros [|i]; simpl; try done.
  - pose proof (Hf x). unfold has_tag in *.
    repeat case_decide; simpl; congruence.
  - case_decide; [done|]. rewrite <- !option_fmap_compose.
    specialize (IH i).
    revert IH. unfold alter.
    destruct (list_find (has_tag t) (list_alter f i l)) as [[]|],
             (list_find (has_tag t) l) as [[]|]; simpl; congruence.
Qed.

(** A section other than [t] keeps its place when [t] receives a node. *)
Lemma section_index_append_ne t t' n d :
  t <> t' ->
  section_index t' (append_to_section t n d) <> section_index t d.
Proof.
  intros Hne. unfold section_index at 1.
  destruct (list_find _ (children (append_to_section t n d)))
    as [[j c]|] eqn:Hf'.
  - apply list_find_Some in Hf' as (Hj & Ht' & _). intros ->.
    pose proof (node_at_appended t n d) as Hn. simpl in Hn.
    revert Hj Hn. unfold append_to_section, section_index.
    destruct (list_find (has_tag t) (children d)) as [[i c0]|] eqn:Hf; simpl.
    + apply list_find_Some in Hf as (Hi & Ht & _).
      rewrite list_lookup_alter_eq, Hi; simpl. intros [= <-] _.
      unfold has_tag in *; simpl in *. congruence.
    + rewrite list_lookup_middle by done. intros [= <-] _.
      unfold has_tag in *; simpl in *. congruence.
  - pose proof (section_index_lt t n d). lia.
Qed.
End Sections.

Section Frames.
Implicit Types (t : string) (d n c : element) (f g : element -> element).

Lemma node_at_append_ne t n d i q :
  i <> section_index t d ->
  node_at (i :: q) (append_to_section t n d) = node_at (i :: q) d.
Proof.
  unfold section_index, append_to_section.
  destruct (list_find (has_tag t) (children d)) as [[j c]|] eqn:Hf;
    simpl; intros Hne.
  - by rewrite list_lookup_alter_ne.
  - destruct (decide (i < length (children d))).
    + by rewrite lookup_app_l.
    + rewrite !lookup_ge_None_2; [done|lia|].
      rewrite length_app; simpl; lia.
Qed.

Lemma alter_child_append_ne t n d i g :
  i <> section_index t d -> i < length (children d) ->
  (forall x, tag (g x) = tag x) ->
  alter_child g i (append_to_section t n d)
  = append_to_section t n (alter_child g i d).
Proof.
  intros Hne Hlt Hg. pose proof (list_find_tag_alter t g i (children d) Hg) as Hfind.
  revert Hne Hfind. unfold section_index, append_to_section. simpl.
  destruct (list_find (has_tag t) (children d)) as [[j c]|] eqn:Hf,
           (list_find (has_tag t) (alter g i (children d))) as [[j' c']|] eqn:Hf';
    simpl; try done.
  - intros Hne [= ->]. unfold alter_child; simpl. f_equal.
    by apply list_alter_alter_ne.
  - intros _ _. unfold alter_child, add_child; simpl. f_equal.
    by rewrite alter_app_l.
Qed.

End Frames.

Section Inner.
Implicit Types (t : string) (d n c : element) (f g : element -> element).

Lemma node_at_appended_inner t t' n n' d q :
  t <> t' ->
  node_at (section_index t d :: section_len t d :: q)
    (append_to_section t' n' (append_to_section t n d))
  = node_at q n.
Proof.
  intros Hne. rewrite node_at_append_ne.
  - change (?i :: ?j :: q) with ([i; j] ++ q).
    by rewrite node_at_app, node_at_appended.
  - intros Heq. by eapply section_index_append_ne.
Qed.

Lemma modify_appended_inner t t' n n' d f :
  t <> t' ->
  modify [section_index t d; section_len t d] f
    (append_to_section t' n' (append_to_section t n d))
  = append_to_section t' n' (append_to_section t (f n) d).
Proof.
  intros Hne. rewrite <- modify_appended.
  change (modify [?i; ?j] f ?e) with (alter_child (modify [j] f) i e).
  apply alter_child_append_ne.
  - intros Heq. by eapply section_index_append_ne.
  - apply section_index_lt.
  - done.
Qed.
End Inner.

Section Outer.
Implicit Types (t : string) (d n c : element) (f g : element -> element).

Lemma list_find_alter_irrel (P : element -> Prop) `{!forall x, Decision (P x)}
    f i (l : list element) :
  (forall x, l !! i = Some x -> ~ P x /\ ~ P (f x)) ->
  list_find P (alter f i l) = list_find P l.
Proof.
  revert i; induction l as [|x l IH]; intros [|i] Hx; simpl; try done.
  - destruct (Hx x eq_refl). by repeat case_decide.
  - case_decide; [done|]. f_equal. apply IH. intros y Hy. by apply Hx.
Qed.

(** Looking for another section is not affected by the appended node. *)
Lemma list_find_append_ne t t' n d :
  t <> t' ->
  list_find (has_tag t') (children (append_to_section t n d))
  = list_find (has_tag t') (children (ensure_section t d)).
Proof.
  intros Hne. unfold append_to_section, ensure_section.
  destruct (list_find (has_tag t) (children d)) as [[i c]|] eqn:Hf; simpl.
  - apply list_find_Some in Hf as (Hi & Ht & _).
    apply list_find_alter_irrel. intros x Hx. rewrite Hi in Hx.
    injection Hx as <-. unfold has_tag in *; simpl. split; congruence.
  - destruct (list_find (has_tag t') (children d)) as [[j c]|] eqn:Hf'.
    + by rewrite !(list_find_app_l _ _ _ _ _ Hf').
    + rewrite !list_find_app_r by done. simpl.
      unfold has_tag; simpl. by repeat case_decide.
Qed.

Lemma length_children_append t n d :
  length (children (append_to_section t n d))
  = length (children (ensure_section t d)).
Proof.
  unfold append_to_section, ensure_section.
  destruct (list_find (has_tag t) (children d)) as [[i c]|]; simpl.
  - apply length_alter.
  - by rewrite !length_app.
Qed.

Lemma section_index_append t t' n d :
  t <> t' ->
  section_index t' (append_to_section t n d)
  = section_index t' (ensure_section t d).
Proof.
  intros Hne. unfold section_index.
  by rewrite list_find_append_ne, length_children_append.
Qed.

Lemma section_len_append t t' n d :
  t <> t' ->
  section_len t' (append_to_section t n d)
  = section_len t' (ensure_section t d).
Proof. intros Hne. unfold section_len. by rewrite list_find_append_ne. Qed.

Lemma node_at_appended_outer t t' n n' d :
  t <> t' ->
  node_at [section_index t' (ensure_section t d);
           section_len t' (ensure_section t d)]
    (append_to_section t' n' (append_to_section t n d))
  = Some n'.
Proof.
  intros Hne. rewrite <- (section_index_append t t' n d Hne).
  rewrite <- (section_len_append t t' n d Hne). apply node_at_appended.
Qed.

Lemma modify_appended_outer t t' n n' d f :
  t <> t' ->
  modify [section_index t' (ensure_section t d);
          section_len t' (ensure_section t d)] f
    (append_to_section t' n' (append_to_section t n d))
  = append_to_section t' (f n') (append_to_section t n d).
Proof.
  intros Hne. rewrite <- (section_index_append t t' n d Hne).
  rewrite <- (section_len_append t t' n d Hne). apply modify_appended.
Qed.
End Outer.

(** ** The translator and its functional account *)

Section Refinement.
Context `{VersionScheme}.
Implicit Types (h : gmap string value) (s : HipChat) (d : element).

Lemma run_find_or_create {A} t (k : path -> M A) s d tr :
  (found ← find [] t;
   sec ← match found with
         | Some p => mret p
         | None => SubElement [] t
         end;
   k sec) (W s d tr)
  = k [section_index t d] (W s (ensure_section t d) tr).
Proof.
  rewrite (run_bind _ _ _ _ _ (run_find t s d tr)).
  unfold section_index, ensure_section.
  destruct (list_find (has_tag t) (children d)) as [[i c]|]; [done|].
  by rewrite (run_bind _ _ _ _ _ (run_SubElement [] t s d tr d eq_refl)).
Qed.

Lemma run_assoc {A B C} (m : M A) (f : A -> M B) (k : B -> M C) w :
  ((m ≫= f) ≫= k) w = (m ≫= (fun x => f x ≫= k)) w.
Proof.
  unfold mbind, M_bind. by destruct (m w) as [w' [a|e|c]].
Qed.

Lemma props_ne_pubs : "properties" <> "publishers".
Proof. done. Qed.

Lemma run_bind_ext {A B} (m : M A) (k1 k2 : A -> M B) w :
  (forall a w', k1 a w' = k2 a w') -> (m ≫= k1) w = (m ≫= k2) w.
Proof.
  intros Hk. unfold mbind, M_bind. by destruct (m w) as [w' [a|e|c]].
Qed.

(** On a config that passes the guard, [gen_xml] is the loader followed
    by the functional account of the translation. *)
Theorem gen_xml_enabled data h w :
  data !! "hipchat" = Some h ->
  dict_truthy h = true ->
  truthy (dict_get_default h "enabled" (VBool true)) = true ->
  gen_xml data w = (_load_global_data;; translated h) w.
Proof.
  intros Hh Hne Hen. unfold gen_xml. rewrite Hh, Hne, Hen.
  cbn [negb orb]. apply run_bind_ext. intros _ [s d tr].
  rewrite run_find_or_create.
  destruct (ensure_section_node "properties" d) as (sec & Hsec & _ & Hlen).
  rewrite (run_bind _ _ _ _ _ (run_SubElement _ pdefhip_tag s _ tr _ Hsec)).
  rewrite append_to_section_modify, Hlen. cbn [app].
  rewrite (run_bind _ _ _ _ _
             (run_SubElement _ "room" s _ tr _ (node_at_appended _ _ _))).
  rewrite modify_appended. cbn [app length children add_child].
  set (room := [section_index "properties" d; section_len "properties" d; 0]).
  set (room_step := match h !! "rooms" with Some _ => _ | None => _ end).
  assert (room_step
            (W s (append_to_section "properties"
                    (Element pdefhip_tag VNone [Element "room" VNone []]) d) tr)
          = match resolve_room h with
            | (inl e, evs) =>
                (W s (append_to_section "properties"
                        (Element pdefhip_tag VNone [Element "room" VNone []]) d)
                   (tr ++ evs), Raise e)
            | (inr rt, evs) =>
                (W s (append_to_section "properties"
                        (Element pdefhip_tag VNone [Element "room" rt []]) d)
                   (tr ++ evs), Return tt)
            end) as Hroom.
  { assert (forall v tr',
              set_text room v
                (W s (append_to_section "properties"
                        (Element pdefhip_tag VNone [Element "room" VNone []]) d) tr')
              = (W s (append_to_section "properties"
                        (Element pdefhip_tag VNone [Element "room" v []]) d) tr',
                 Return tt)) as Hset.
    { intros v tr'. rewrite run_set_text. unfold room.
      change [?i; ?j; 0] with ([i; j] ++ [0]).
      by rewrite modify_app, modify_appended. }
    unfold room_step, resolve_room.
    destruct (h !! "rooms") as [[| b | r | l]|]; cbn [py_join].
    - by rewrite app_nil_r.
    - by rewrite app_nil_r.
    - rewrite app_nil_r. apply Hset.
    - rewrite app_nil_r. apply Hset.
    - destruct (h !! "room") as [r|].
      + apply Hset.
      + by rewrite app_nil_r. }
  unfold translated. cbn [self xml trace].
  destruct (resolve_room h) as [[e|rt] evs].
  { by rewrite (run_bind_raise _ _ _ _ _ Hroom). }
  rewrite (run_bind _ _ _ _ _ Hroom). clear Hroom room_step.
  rewrite run_find_or_create.
  set (P0 := Element pdefhip_tag VNone [Element "room" rt []]).
  destruct (ensure_section_node "publishers"
              (append_to_section "properties" P0 d))
    as (sec' & Hsec' & _ & Hlen').
  rewrite (run_bind _ _ _ _ _ (run_SubElement _ hippub_tag s _ (tr ++ evs) _ Hsec')).
  rewrite append_to_section_modify, Hlen'. cbn [app].
  clear sec' Hsec' Hlen'.
  rewrite (section_index_append _ _ _ _ props_ne_pubs).
  rewrite (section_len_append _ _ _ _ props_ne_pubs).
  cbn [for_each]. rewrite ?run_assoc.
  rewrite (run_bind _ _ _ _ _
             (run_flags h _ yaml2xmlkeys s _ (tr ++ evs) _
                (node_at_appended_outer _ _ _ _ _ props_ne_pubs))).
  rewrite (modify_appended_outer _ _ _ _ _ _ props_ne_pubs).
  rewrite ?run_assoc.
  rewrite (run_bind _ _ _ _ _
             (run_flags h _ yaml2xmlkeys s _ (tr ++ evs) _
                (node_at_appended_inner _ _ _ _ _ [] props_ne_pubs))).
  rewrite (modify_appended_inner _ _ _ _ _ _ props_ne_pubs).
  rewrite (run_bind _ _ (W s _ (tr ++ evs)) _ tt eq_refl).
  rewrite (run_bind get_self _ (W s _ (tr ++ evs)) _ s eq_refl).
  rewrite (run_bind (emit _) _ (W s _ (tr ++ evs)) _ tt eq_refl).
  cbn [self xml trace]. fold (new_schema s).
  set (P1 := add_children (flag_fields h yaml2xmlkeys) P0).
  set (hippub := [section_index "publishers" (ensure_section "properties" d);
                  section_len "publishers" (ensure_section "properties" d)]).
  assert (forall t n tr',
            SubElement hippub t
              (W s (append_to_section "publishers" n
                      (append_to_section "properties" P1 d)) tr')
            = (W s (modify hippub (add_child (Element t VNone []))
                      (append_to_section "publishers" n
                         (append_to_section "properties" P1 d))) tr',
               Return (hippub ++ [length (children n)]))) as Hsub.
  { intros t n tr'. apply run_SubElement. unfold hippub.
    apply (node_at_appended_outer _ _ _ _ _ props_ne_pubs). }
  assert (forall t v n,
            modify (hippub ++ [length (children n)]) (with_text v)
              (modify hippub (add_child (Element t VNone []))
                 (append_to_section "publishers" n
                    (append_to_section "properties" P1 d)))
            = append_to_section "publishers"
                (add_children [Element t v []] n)
                (append_to_section "properties" P1 d)) as Hdoc.
  { intros t v n. unfold hippub.
    rewrite (modify_new_child _ _ _ _ _
               (node_at_appended_outer _ _ _ _ _ props_ne_pubs)).
    apply (modify_appended_outer _ _ _ _ _ _ props_ne_pubs). }
  assert (forall n tr',
            get_text room
              (W s (append_to_section "publishers" n
                      (append_to_section "properties" P1 d)) tr')
            = (W s (append_to_section "publishers" n
                      (append_to_section "properties" P1 d)) tr',
               Return rt)) as Hroomtext.
  { intros n tr'. apply (run_get_text _ _ _ _ (Element "room" rt [])).
    unfold room.
    by rewrite (node_at_appended_inner _ _ _ _ _ [0] props_ne_pubs). }
  assert (P1 = pdefhip_node h rt) as -> by done.
  unfold hippub_node, server_fields.
  destruct (new_schema s) eqn:Hv.
  - rewrite run_assoc.
    rewrite (run_bind get_self _ (W s _ _) _ s eq_refl).
    rewrite ?run_assoc. rewrite (run_bind _ _ _ _ _ (Hsub _ _ _)).
    rewrite ?run_assoc. rewrite (run_bind _ _ _ _ _ (run_set_text _ _ _ _ _)).
    rewrite Hdoc.
    unfold get_sendAs. rewrite ?run_assoc.
    rewrite (run_bind get_self _ (W s _ _) _ s eq_refl).
    destruct (sendAs s) as [sa|] eqn:Hsa.
    + rewrite ?run_assoc. rewrite (run_bind (mret sa) _ (W s _ _) _ sa eq_refl).
      rewrite ?run_assoc. rewrite (run_bind _ _ _ _ _ (Hsub _ _ _)).
      rewrite ?run_assoc. rewrite (run_bind _ _ _ _ _ (run_set_text _ _ _ _ _)).
      rewrite Hdoc.
      rewrite (run_bind get_self _ (W s _ _) _ s eq_refl).
      rewrite (run_bind _ _ _ _ _ (Hsub _ _ _)).
      rewrite (run_bind _ _ _ _ _ (run_set_text _ _ _ _ _)).
      rewrite Hdoc.
      rewrite (run_bind _ _ _ _ _ (Hroomtext _ _)).
      rewrite (run_bind _ _ _ _ _ (Hsub _ _ _)).
      rewrite run_set_text, Hdoc.
      unfold add_children; cbn [tag text children attr_value].
      by rewrite <- !app_assoc.
    + rewrite ?run_assoc.
      rewrite (run_bind_raise (raise AttributeError) _ (W s _ _) _ _ eq_refl).
      done.
  - rewrite run_assoc.
    rewrite (run_bind get_self _ (W s _ _) _ s eq_refl).
    rewrite ?run_assoc. rewrite (run_bind _ _ _ _ _ (Hsub _ _ _)).
    rewrite (run_bind _ _ _ _ _ (run_set_text _ _ _ _ _)).
    rewrite Hdoc.
    rewrite (run_bind get_self _ (W s _ _) _ s eq_refl).
    rewrite (run_bind _ _ _ _ _ (Hsub _ _ _)).
    rewrite (run_bind _ _ _ _ _ (run_set_text _ _ _ _ _)).
    rewrite Hdoc.
    rewrite (run_bind _ _ _ _ _ (Hroomtext _ _)).
    rewrite (run_bind _ _ _ _ _ (Hsub _ _ _)).
    rewrite run_set_text, Hdoc.
    unfold add_children; cbn [tag text children].
    by rewrite <- !app_assoc.
Qed.

End Refinement.

(** ** The credential loader *)

Lemma load_cached w :
  truthy_attr (authToken (self w)) = true ->
  _load_global_data w = (w, Return tt).
Proof.
  intros Htok. unfold _load_global_data.
  rewrite (run_bind get_self _ w w (self w) eq_refl). by rewrite Htok.
Qed.

Ltac run_loader :=
  cbv [try_except config_get mbind M_bind get_self emit set_authToken
       set_jenkinsUrl set_sendAs put_self raise sys_exit mret M_ret
       self xml trace registry authToken jenkinsUrl sendAs].

Lemma load_loaded w : _load_global_data w = loaded w.
Proof.
  destruct w as [s d tr]. unfold loaded; cbn [self xml trace].
  unfold _load_global_data.
  rewrite (run_bind get_self _ (W s d tr) _ s eq_refl).
  destruct (truthy_attr (authToken s)); [done|]. cbn [negb].
  run_loader.
  destruct (config_lookup _ "hipchat" "authtoken") as [e|tok].
  { by destruct e. }
  run_loader. destruct (String.eqb tok ""); [done|]. run_loader.
  destruct (config_lookup _ "jenkins" "url") as [e|url]; [done|]. run_loader.
  by destruct (config_lookup _ "hipchat" "send-as") as [e|sa].
Qed.

Lemma load_xml w : xml (fst (_load_global_data w)) = xml w.
Proof.
  rewrite load_loaded. unfold loaded.
  repeat case_match; done.
Qed.

Lemma load_registry w :
  registry (self (fst (_load_global_data w))) = registry (self w).
Proof.
  rewrite load_loaded. unfold loaded.
  repeat case_match; done.
Qed.

Lemma load_returns w w1 :
  _load_global_data w = (w1, Return tt) ->
  truthy_attr (authToken (self w1)) = true.
Proof.
  rewrite load_loaded. unfold loaded.
  destruct (truthy_attr (authToken (self w))) eqn:Htok.
  - by intros [= <-].
  - repeat case_match; try done. intros [= <-]. simpl.
    by match goal with Hs : String.eqb _ _ = false |- _ => rewrite Hs end.
Qed.

(** ** Reading the document back *)

Section Reading.
Implicit Types (t : string) (d n c e : element) (l : list element).

Lemma first_tagged_cons t e l :
  first_tagged t (e :: l)
  = if decide (tag e = t) then Some e else first_tagged t l.
Proof.
  unfold first_tagged; simpl. unfold has_tag at 1.
  case_decide; [done|]. rewrite <- option_fmap_compose.
  by destruct (list_find (has_tag t) l) as [[]|].
Qed.

Lemma first_tagged_app t l1 l2 :
  first_tagged t (l1 ++ l2)
  = match first_tagged t l1 with
    | Some e => Some e
    | None => first_tagged t l2
    end.
Proof.
  induction l1 as [|e l1 IH]; [done|]. simpl.
  rewrite !first_tagged_cons. by case_decide.
Qed.

Lemma child_first_tagged e t : child e t = first_tagged t (children e).
Proof. done. Qed.

Lemma section_children_child t d :
  section_children t d = from_option children [] (child d t).
Proof.
  unfold section_children, child, first_tagged.
  by destruct (list_find (has_tag t) (children d)) as [[i c]|].
Qed.

(** The section that receives a node, and the sections that do not. *)
Lemma child_append t n d :
  child (append_to_section t n d) t
  = Some (add_child n (default (Element t VNone []) (child d t))).
Proof.
  unfold child, first_tagged, append_to_section.
  destruct (list_find (has_tag t) (children d)) as [[i c]|] eqn:Hf; simpl.
  - apply list_find_Some in Hf as (Hi & Ht & Hlt).
    assert (list_find (has_tag t) (alter (add_child n) i (children d))
            = Some (i, add_child n c)) as ->; [|done].
    apply list_find_Some. split_and!.
    + by rewrite list_lookup_alter_eq, Hi.
    + done.
    + intros j y Hj Hji. rewrite list_lookup_alter_ne in Hj by lia. eauto.
  - rewrite list_find_app_r by done. simpl.
    unfold has_tag at 1; simpl. by rewrite decide_True.
Qed.

Lemma child_ensure_ne t t' d :
  t <> t' -> child (ensure_section t d) t' = child d t'.
Proof.
  intros Hne. unfold child, first_tagged, ensure_section.
  destruct (list_find (has_tag t) (children d)) as [[i c]|]; [done|]. simpl.
  destruct (list_find (has_tag t') (children d)) as [[j c]|] eqn:Hf'.
  - by rewrite (list_find_app_l _ _ _ _ _ Hf').
  - rewrite list_find_app_r by done. simpl.
    unfold has_tag at 1; simpl. by rewrite decide_False.
Qed.

Lemma child_append_ne t t' n d :
  t <> t' -> child (append_to_section t n d) t' = child d t'.
Proof.
  intros Hne. rewrite <- (child_ensure_ne t t' d Hne).
  unfold child, first_tagged. by rewrite list_find_append_ne.
Qed.

Lemma section_children_append t n d :
  section_children t (append_to_section t n d) = section_children t d ++ [n].
Proof.
  rewrite !section_children_child, child_append.
  by destruct (child d t).
Qed.

Lemma section_children_append_ne t t' n d :
  t <> t' ->
  section_children t' (append_to_section t n d) = section_children t' d.
Proof. intros Hne. by rewrite !section_children_child, child_append_ne. Qed.

Lemma length_children_ensure t d :
  length (children (ensure_section t d))
  = length (children d) + match child d t with Some _ => 0 | None => 1 end.
Proof.
  unfold ensure_section, child, first_tagged.
  destruct (list_find (has_tag t) (children d)) as [[i c]|]; simpl; [lia|].
  by rewrite length_app.
Qed.

Lemma flag_fields_cons h k ks :
  flag_fields h (k :: ks) = flag_field h k ++ flag_fields h ks.
Proof. done. Qed.

Lemma first_tagged_flags_other h ks t :
  t ∉ targets ks -> first_tagged t (flag_fields h ks) = None.
Proof.
  induction ks as [|[src [tgt opt]] ks IH]; [done|].
  intros Hnot. rewrite flag_fields_cons, first_tagged_app.
  apply not_elem_of_cons in Hnot as [Hne Hnot]. simpl in Hne.
  rewrite IH by done. unfold flag_field.
  destruct (negb opt || truthy (dict_get h src)); [|done].
  rewrite first_tagged_cons; simpl. by rewrite decide_False.
Qed.

Lemma first_tagged_flags h ks src tgt opt :
  NoDup (targets ks) -> (src, (tgt, opt)) ∈ ks ->
  first_tagged tgt (flag_fields h ks)
  = if negb opt || truthy (dict_get h src)
    then Some (Element tgt
                 (VStr (lower (py_str (dict_get_default h src (VBool false)))))
                 [])
    else None.
Proof.
  induction ks as [|[src' [tgt' opt']] ks IH]; intros Hnd Hin.
  - by apply elem_of_nil in Hin.
  - apply NoDup_cons in Hnd as [Hnot Hnd]. simpl in Hnot.
    rewrite flag_fields_cons, first_tagged_app.
    apply elem_of_cons in Hin as [[= <- <- <-]|Hin].
    + unfold flag_field at 1.
      destruct (negb opt || truthy (dict_get h src)).
      * rewrite first_tagged_cons; simpl. by rewrite decide_True.
      * simpl. by apply first_tagged_flags_other.
    + assert (tgt' <> tgt) as Hne.
      { intros ->. apply Hnot. unfold targets.
        apply (list_elem_of_fmap_2 (fun k => fst (snd k)) _ _ Hin). }
      rewrite (IH Hnd Hin). unfold flag_field.
      destruct (negb opt' || truthy (dict_get h src')); [|done].
      rewrite first_tagged_cons; simpl. by rewrite decide_False.
Qed.
End Reading.

Section Results.
Context `{VersionScheme}.
Implicit Types (h : gmap string value) (w : world).

(** A translation that returns has loaded the credentials, resolved a
    room text and appended the two finished nodes. *)
Lemma gen_xml_returns data h w w' :
  data !! "hipchat" = Some h ->
  proceeds h = true ->
  gen_xml data w = (w', Return tt) ->
  exists w1 rt evs,
    _load_global_data w = (w1, Return tt)
    /\ resolve_room h = (inr rt, evs)
    /\ self w' = self w1
    /\ trace w' = (trace w1 ++ evs) ++ [PluginInfo "Jenkins HipChat Plugin"]
    /\ xml w' = append_to_section "publishers" (hippub_node h (self w1) rt)
                  (append_to_section "properties" (pdefhip_node h rt) (xml w))
    /\ (new_schema (self w1) = true -> is_Some (sendAs (self w1))).
Proof.
  intros Hh Hp. apply andb_true_iff in Hp as [Hne Hen].
  rewrite (gen_xml_enabled data h w Hh Hne Hen).
  unfold mbind, M_bind.
  pose proof (load_xml w) as Hxml.
  destruct (_load_global_data w) as [w1 [[]|e|c]]; try done.
  simpl in Hxml. unfold translated. rewrite Hxml.
  destruct (resolve_room h) as [[e|rt] evs]; [done|].
  intros Hres. exists w1, rt, evs. split_and!; try done;
    destruct (new_schema (self w1)), (sendAs (self w1)); try done;
    injection Hres as <-; try done.
  all: by eauto.
Qed.
End Results.

Section Claims.
Context `{VersionScheme}.
Implicit Types (h : gmap string value) (w : world).

Lemma child_pdefhip_room h rt :
  child_text (pdefhip_node h rt) "room" = Some rt.
Proof. done. Qed.

Lemma yaml2xmlkeys_targets_NoDup : NoDup (targets yaml2xmlkeys).
Proof. compute_done. Qed.

Lemma child_hippub_room h s rt :
  child_text (hippub_node h s rt) "room" = Some rt.
Proof.
  unfold child_text, child, hippub_node; cbn [children].
  change (snd <$> list_find (has_tag ?t) ?l) with (first_tagged t l).
  rewrite !first_tagged_app.
  rewrite first_tagged_flags_other by compute_done.
  unfold server_fields. by destruct (new_schema s).
Qed.

(** C1: for every enabled config whose translation completes, the room
    text of the property node and that of the notifier node are the same
    value: the comma-joined ['rooms'] list when ['rooms'] is given, the
    ['room'] value otherwise. *)
Theorem room_text_in_both_nodes data h w w' :
  data !! "hipchat" = Some h ->
  proceeds h = true ->
  gen_xml data w = (w', Return tt) ->
  exists pdefhip hippub rt,
    last (section_children "properties" (xml w')) = Some pdefhip
    /\ last (section_children "publishers" (xml w')) = Some hippub
    /\ tag pdefhip = pdefhip_tag /\ tag hippub = hippub_tag
    /\ child_text pdefhip "room" = Some rt
    /\ child_text hippub "room" = Some rt
    /\ (forall l, h !! "rooms" = Some (VList l) -> rt = VStr (join "," l))
    /\ (forall r, h !! "rooms" = None -> h !! "room" = Some r -> rt = r).
Proof.
  intros Hh Hp Hrun.
  destruct (gen_xml_returns data h w w' Hh Hp Hrun)
    as (w1 & rt & evs & _ & Hroom & _ & _ & Hxml & _).
  exists (pdefhip_node h rt), (hippub_node h (self w1) rt), rt.
  rewrite Hxml. split_and!.
  - rewrite section_children_append_ne, section_children_append by done.
    apply last_snoc.
  - rewrite section_children_append. apply last_snoc.
  - done.
  - done.
  - apply child_pdefhip_room.
  - apply child_hippub_room.
  - intros l Hl. unfold resolve_room in Hroom. rewrite Hl in Hroom. congruence.
  - intros r Hn Hr. unfold resolve_room in Hroom. rewrite Hn, Hr in Hroom.
    congruence.
Qed.

Lemma target_differs ks src tgt opt t :
  (src, (tgt, opt)) ∈ ks -> t ∉ targets ks -> t <> tgt.
Proof.
  intros Hin Hnot ->. apply Hnot.
  apply (list_elem_of_fmap_2 (fun k => fst (snd k)) _ _ Hin).
Qed.

Lemma child_flag_pdefhip h rt src tgt opt :
  (src, (tgt, opt)) ∈ yaml2xmlkeys ->
  child_text (pdefhip_node h rt) tgt
  = if negb opt || truthy (dict_get h src)
    then Some (flag_text h src) else None.
Proof.
  intros Hin. unfold child_text. rewrite child_first_tagged.
  unfold pdefhip_node; cbn [children].
  rewrite first_tagged_cons; cbn [tag].
  rewrite decide_False.
  - rewrite (first_tagged_flags h _ src tgt opt yaml2xmlkeys_targets_NoDup Hin).
    by destruct (negb opt || truthy (dict_get h src)).
  - by apply (target_differs _ _ _ _ _ Hin); compute_done.
Qed.

Lemma child_flag_hippub h s rt src tgt opt :
  (src, (tgt, opt)) ∈ yaml2xmlkeys ->
  child_text (hippub_node h s rt) tgt
  = if negb opt || truthy (dict_get h src)
    then Some (flag_text h src) else None.
Proof.
  intros Hin. unfold child_text. rewrite child_first_tagged.
  unfold hippub_node; cbn [children].
  rewrite first_tagged_app.
  rewrite (first_tagged_flags h _ src tgt opt yaml2xmlkeys_targets_NoDup Hin).
  destruct (negb opt || truthy (dict_get h src)); [done|].
  unfold server_fields.
  destruct (new_schema s); cbn [app]; rewrite !first_tagged_cons; cbn [tag];
    rewrite !decide_False; try done;
    by apply (target_differs _ _ _ _ _ Hin); compute_done.
Qed.

(** C2, amended: for every enabled config whose translation completes, the
    ['start-notify'] flag is always written to both nodes, as the lower-cased
    text of its value and as false when it is absent, while each of the six
    [notify-*] flags is written only when its value is truthy: a flag that is
    absent or false is not written at all. *)
Theorem notify_flags_written data h w w' :
  data !! "hipchat" = Some h ->
  proceeds h = true ->
  gen_xml data w = (w', Return tt) ->
  exists pdefhip hippub,
    last (section_children "properties" (xml w')) = Some pdefhip
    /\ last (section_children "publishers" (xml w')) = Some hippub
    /\ (forall node, node = pdefhip \/ node = hippub ->
          child_text node "startNotification" = Some (flag_text h "start-notify")
          /\ forall src tgt, (src, (tgt, true)) ∈ yaml2xmlkeys ->
               child_text node tgt
               = if truthy (dict_get h src) then Some (flag_text h src) else None)
    /\ (forall src, h !! src = None ->
          flag_text h src = VStr "false" /\ truthy (dict_get h src) = false)
    /\ (forall src b, h !! src = Some (VBool b) ->
          flag_text h src = VStr (if b then "true" else "false")
          /\ truthy (dict_get h src) = b).
Proof.
  intros Hh Hp Hrun.
  destruct (gen_xml_returns data h w w' Hh Hp Hrun)
    as (w1 & rt & evs & _ & _ & _ & _ & Hxml & _).
  exists (pdefhip_node h rt), (hippub_node h (self w1) rt).
  rewrite Hxml. split_and!.
  - rewrite section_children_append_ne, section_children_append by done.
    apply last_snoc.
  - rewrite section_children_append. apply last_snoc.
  - intros node [-> | ->]; split.
    + by rewrite (child_flag_pdefhip h rt "start-notify" _ false)
        by (unfold yaml2xmlkeys; set_solver).
    + intros src tgt Hin. by rewrite (child_flag_pdefhip h rt src tgt true Hin).
    + by rewrite (child_flag_hippub h _ rt "start-notify" _ false)
        by (unfold yaml2xmlkeys; set_solver).
    + intros src tgt Hin. by rewrite (child_flag_hippub h _ rt src tgt true Hin).
  - intros src Hsrc. unfold flag_text, dict_get_default, dict_get.
    by rewrite Hsrc.
  - intros src b Hsrc. unfold flag_text, dict_get_default, dict_get.
    rewrite Hsrc. by destruct b.
Qed.
Lemma gen_xml_after_load data h w w1 :
  data !! "hipchat" = Some h ->
  proceeds h = true ->
  _load_global_data w = (w1, Return tt) ->
  gen_xml data w = translated h w1.
Proof.
  intros Hh Hp Hload. apply andb_true_iff in Hp as [Hne Hen].
  rewrite (gen_xml_enabled data h w Hh Hne Hen).
  by rewrite (run_bind _ _ _ _ _ Hload).
Qed.

(** C3, amended: for every enabled config with neither ['room'] nor
    ['rooms'], once the credentials are loaded the translator raises the
    format error to its caller; nothing is appended to the publishers
    section, which is not created either, but the properties section,
    created when missing, has already received a property node whose only
    child is a [room] element without text. *)
Theorem format_error_after_property_node data h w w1 :
  data !! "hipchat" = Some h ->
  proceeds h = true ->
  h !! "rooms" = None ->
  h !! "room" = None ->
  _load_global_data w = (w1, Return tt) ->
  exists w',
    gen_xml data w = (w', Raise YAMLFormatError)
    /\ xml w' = append_to_section "properties" bare_property (xml w)
    /\ section_children "properties" (xml w')
       = section_children "properties" (xml w) ++ [bare_property]
    /\ child (xml w') "publishers" = child (xml w) "publishers".
Proof.
  intros Hh Hp Hrooms Hroom Hload.
  rewrite (gen_xml_after_load data h w w1 Hh Hp Hload).
  unfold translated, resolve_room. rewrite Hrooms, Hroom.
  pose proof (load_xml w) as Hxml. rewrite Hload in Hxml. simpl in Hxml.
  rewrite Hxml. eexists. split; [done|]. cbn [xml]. split_and!.
  - done.
  - apply section_children_append.
  - by apply child_append_ne.
Qed.

(** C4, amended: for every enabled config, once the credentials are loaded,
    the translator raises the format error exactly when neither ['room'] nor
    ['rooms'] is present; when both are present no error is raised for it,
    and the room text is the one of ['rooms']. *)
Theorem room_or_rooms_required data h w w1 :
  data !! "hipchat" = Some h ->
  proceeds h = true ->
  _load_global_data w = (w1, Return tt) ->
  (snd (gen_xml data w) = Raise YAMLFormatError
   <-> h !! "rooms" = None /\ h !! "room" = None)
  /\ (forall l r,
        h !! "rooms" = Some (VList l) -> h !! "room" = Some r ->
        exists pdefhip,
          last (section_children "properties" (xml (fst (gen_xml data w))))
          = Some pdefhip
          /\ child_text pdefhip "room" = Some (VStr (join "," l))).
Proof.
  intros Hh Hp Hload.
  rewrite (gen_xml_after_load data h w w1 Hh Hp Hload).
  unfold translated, resolve_room. split.
  - destruct (h !! "rooms") as [[]|], (h !! "room");
      destruct (new_schema (self w1)), (sendAs (self w1)); simpl;
      split; try done; intros [? ?]; done.
  - intros l r Hl _. rewrite Hl.
    exists (pdefhip_node h (VStr (join "," l))). split.
    + destruct (new_schema (self w1)), (sendAs (self w1)); cbn [fst xml];
        rewrite section_children_append_ne, section_children_append by done;
        apply last_snoc.
    + apply child_pdefhip_room.
Qed.

(** The server fields of the notifier node. *)
Lemma child_hippub_server h s rt :
  if new_schema s
  then child_text (hippub_node h s rt) "buildServerUrl"
       = Some (attr_value (jenkinsUrl s))
       /\ child_text (hippub_node h s rt) "sendAs" = Some (attr_value (sendAs s))
       /\ child (hippub_node h s rt) "jenkinsUrl" = None
  else child_text (hippub_node h s rt) "jenkinsUrl"
       = Some (attr_value (jenkinsUrl s))
       /\ child (hippub_node h s rt) "buildServerUrl" = None
       /\ child (hippub_node h s rt) "sendAs" = None.
Proof.
  unfold child_text. rewrite !child_first_tagged.
  unfold hippub_node; cbn [children]. rewrite !first_tagged_app.
  rewrite !first_tagged_flags_other by compute_done.
  unfold server_fields. by destruct (new_schema s).
Qed.

Lemma new_schema_registry s s' :
  registry s = registry s' -> new_schema s = new_schema s'.
Proof. unfold new_schema. by intros ->. Qed.

Lemma version_gate_general data h w w' :
  data !! "hipchat" = Some h ->
  proceeds h = true ->
  gen_xml data w = (w', Return tt) ->
  exists hippub,
    last (section_children "publishers" (xml w')) = Some hippub
    /\ if new_schema (self w)
       then child_text hippub "buildServerUrl"
            = Some (attr_value (jenkinsUrl (self w')))
            /\ child_text hippub "sendAs" = Some (attr_value (sendAs (self w')))
            /\ child hippub "jenkinsUrl" = None
       else child_text hippub "jenkinsUrl"
            = Some (attr_value (jenkinsUrl (self w')))
            /\ child hippub "buildServerUrl" = None
            /\ child hippub "sendAs" = None.
Proof.
  intros Hh Hp Hrun.
  destruct (gen_xml_returns data h w w' Hh Hp Hrun)
    as (w1 & rt & evs & Hload & _ & -> & _ & Hxml & _).
  exists (hippub_node h (self w1) rt). rewrite Hxml. split.
  - rewrite section_children_append. apply last_snoc.
  - pose proof (load_registry w) as Hreg. rewrite Hload in Hreg.
    rewrite <- (new_schema_registry _ _ Hreg). apply child_hippub_server.
Qed.

(** A blank token and a missing section end the process, the document
    being as it was. *)
Lemma blank_token_exits data h w :
  data !! "hipchat" = Some h ->
  proceeds h = true ->
  truthy_attr (authToken (self w)) = false ->
  config_lookup (global_config (registry (self w))) "hipchat" "authtoken"
  = inr "" ->
  exists w', gen_xml data w = (w', Exit 1) /\ xml w' = xml w
             /\ LogFatal fatal_msg JenkinsJobsException ∈ trace w'.
Proof.
  intros Hh Hp Htok Hcfg. apply andb_true_iff in Hp as [Hne Hen].
  rewrite (gen_xml_enabled data h w Hh Hne Hen).
  unfold mbind, M_bind. rewrite load_loaded. unfold loaded.
  rewrite Htok, Hcfg. cbn [String.eqb]. eexists. split_and!; [done..|].
  cbn [trace]. set_solver.
Qed.

Lemma missing_section_exits data h w :
  data !! "hipchat" = Some h ->
  proceeds h = true ->
  truthy_attr (authToken (self w)) = false ->
  sections (global_config (registry (self w))) !! "hipchat" = None ->
  exists w', gen_xml data w = (w', Exit 1) /\ xml w' = xml w
             /\ LogFatal fatal_msg NoSectionError ∈ trace w'.
Proof.
  intros Hh Hp Htok Hcfg. apply andb_true_iff in Hp as [Hne Hen].
  rewrite (gen_xml_enabled data h w Hh Hne Hen).
  unfold mbind, M_bind. rewrite load_loaded. unfold loaded, config_lookup.
  rewrite Htok, Hcfg. eexists. split_and!; [done..|].
  cbn [trace]. set_solver.
Qed.

(** The translation changes the document whenever it gets to return. *)
Lemma append_to_section_changes t n d : append_to_section t n d <> d.
Proof.
  intros Heq. pose proof (section_children_append t n d) as Hc.
  rewrite Heq in Hc. apply (f_equal length) in Hc.
  rewrite length_app in Hc. simpl in Hc. lia.
Qed.

Lemma loaded_trace_grows w w1 o :
  _load_global_data w = (w1, o) ->
  w1 = w \/ length (trace w) < length (trace w1).
Proof.
  rewrite load_loaded. unfold loaded.
  repeat case_match; intros [= <- <-]; auto; right; cbn [trace];
    rewrite ?length_app; simpl; lia.
Qed.

Lemma translated_changes h w : fst (translated h w) <> w.
Proof.
  destruct w as [s d tr]. unfold translated; cbn [self xml trace].
  destruct (resolve_room h) as [[e|rt] evs].
  - cbn [fst]. intros [= Hd _]. by apply append_to_section_changes in Hd.
  - assert (forall n n',
              append_to_section "publishers" n'
                (append_to_section "properties" n d) <> d) as Hd.
    { intros n n' Heq.
      pose proof (section_children_append "properties" n d) as Hc.
      rewrite <- (section_children_append_ne "publishers" "properties" n')
        in Hc by done.
      rewrite Heq in Hc. apply (f_equal length) in Hc.
      rewrite length_app in Hc. simpl in Hc. lia. }
    destruct (new_schema s), (sendAs s); cbn [fst]; intros [= Hd' _];
      by apply Hd in Hd'.
Qed.

Lemma translated_trace h w :
  length (trace w) <= length (trace (fst (translated h w))).
Proof.
  unfold translated.
  destruct (resolve_room h) as [[e|rt] evs];
    [|destruct (new_schema (self w)), (sendAs (self w))];
    cbn [fst trace]; rewrite ?length_app; lia.
Qed.

Lemma gen_xml_proceeds_changes data h w :
  data !! "hipchat" = Some h ->
  proceeds h = true ->
  fst (gen_xml data w) <> w.
Proof.
  intros Hh Hp. apply andb_true_iff in Hp as [Hne Hen].
  rewrite (gen_xml_enabled data h w Hh Hne Hen).
  unfold mbind, M_bind.
  destruct (_load_global_data w) as [w1 [[]|e|c]] eqn:Hload; cbn [fst].
  - destruct (loaded_trace_grows _ _ _ Hload) as [->|Hlt].
    + apply translated_changes.
    + intros Heq. pose proof (translated_trace h w1) as Hle.
      rewrite Heq in Hle. lia.
  - destruct (loaded_trace_grows _ _ _ Hload) as [->|Hlt]; [|intros ->; lia].
    rewrite load_loaded in Hload. unfold loaded in Hload.
    repeat case_match; try done; injection Hload as Hw _;
      apply (f_equal trace) in Hw; cbn [trace] in Hw;
      apply (f_equal length) in Hw; rewrite ?length_app in Hw; simpl in Hw; lia.
  - destruct (loaded_trace_grows _ _ _ Hload) as [->|Hlt]; [|intros ->; lia].
    rewrite load_loaded in Hload. unfold loaded in Hload.
    repeat case_match; try done; injection Hload as Hw _;
      apply (f_equal trace) in Hw; cbn [trace] in Hw;
      apply (f_equal length) in Hw; rewrite ?length_app in Hw; simpl in Hw; lia.
Qed.
(** C8, amended: when the notification mapping is absent or empty, or its
    ['enabled'] key is explicitly false, the translator does nothing: the
    instance, the document and the trace are as before.  When the mapping
    is present and not empty but ['enabled'] is unspecified, enabled
    defaults to true and the translation proceeds. *)
Theorem disabled_or_empty_does_nothing data w :
  (data !! "hipchat" = None -> gen_xml data w = (w, Return tt))
  /\ (forall h, data !! "hipchat" = Some h ->
                h !! "enabled" = Some (VBool false) ->
                gen_xml data w = (w, Return tt))
  /\ (data !! "hipchat" = Some ∅ -> gen_xml data w = (w, Return tt))
  /\ (forall h, data !! "hipchat" = Some h ->
                h <> ∅ -> h !! "enabled" = None ->
                gen_xml data w = (_load_global_data;; translated h) w
                /\ fst (gen_xml data w) <> w).
Proof.
  split_and!.
  - intros Hd. unfold gen_xml. by rewrite Hd.
  - intros h Hd Hen. unfold gen_xml, dict_get_default. rewrite Hd, Hen.
    cbn [default truthy negb]. by rewrite orb_true_r.
  - intros Hd. unfold gen_xml. by rewrite Hd.
  - intros h Hd Hne Hen.
    assert (proceeds h = true) as Hp.
    { unfold proceeds, dict_truthy, dict_get_default. rewrite Hen.
      by rewrite bool_decide_eq_false_2. }
    split; [|by apply (gen_xml_proceeds_changes data h)].
    apply andb_true_iff in Hp as [? ?]. by apply gen_xml_enabled.
Qed.

(** C9: once an invocation of the loader has left a non-empty token on the
    instance, every later invocation returns at once and leaves the world as
    it is: nothing is read from the configuration, and the token, the server
    URL and the send-as name stay the same. *)
Theorem loader_idempotent w w1 o tok n :
  _load_global_data w = (w1, o) ->
  authToken (self w1) = Some tok ->
  tok <> "" ->
  for_each (replicate n tt) (fun _ => _load_global_data) w1 = (w1, Return tt).
Proof.
  intros _ Htok Hne.
  assert (truthy_attr (authToken (self w1)) = true) as Hcached.
  { rewrite Htok. simpl. by apply negb_true_iff, String.eqb_neq. }
  induction n as [|n IH]; [done|]. cbn [replicate for_each].
  by rewrite (run_bind _ _ _ _ _ (load_cached w1 Hcached)).
Qed.

(** C10: the translator finds or creates the two sections and appends to
    them, so a second call with the same config on the same parent returns
    too and leaves each node twice: the sections of the first call are
    reused, their earlier children are kept, and no section is added. *)
Theorem gen_xml_twice data h w w1 :
  data !! "hipchat" = Some h ->
  proceeds h = true ->
  gen_xml data w = (w1, Return tt) ->
  exists w2 pdefhip hippub,
    gen_xml data w1 = (w2, Return tt)
    /\ xml w1 = append_to_section "publishers" hippub
                 (append_to_section "properties" pdefhip (xml w))
    /\ xml w2 = append_to_section "publishers" hippub
                 (append_to_section "properties" pdefhip (xml w1))
    /\ section_children "properties" (xml w1)
       = section_children "properties" (xml w) ++ [pdefhip]
    /\ section_children "publishers" (xml w1)
       = section_children "publishers" (xml w) ++ [hippub]
    /\ section_children "properties" (xml w2)
       = section_children "properties" (xml w) ++ [pdefhip; pdefhip]
    /\ section_children "publishers" (xml w2)
       = section_children "publishers" (xml w) ++ [hippub; hippub]
    /\ length (children (xml w1))
       = length (children (xml w))
         + match child (xml w) "properties" with Some _ => 0 | None => 1 end
         + match child (xml w) "publishers" with Some _ => 0 | None => 1 end
    /\ length (children (xml w2)) = length (children (xml w1)).
Proof.
  intros Hh Hp Hrun.
  destruct (gen_xml_returns data h w w1 Hh Hp Hrun)
    as (wl & rt & evs & Hload & Hroom & Hself & _ & Hxml & HsendAs).
  assert (_load_global_data w1 = (w1, Return tt)) as Hload1.
  { apply load_cached. rewrite Hself. by apply (load_returns w). }
  pose proof (gen_xml_after_load data h w1 w1 Hh Hp Hload1) as Hrun2.
  unfold translated in Hrun2. rewrite Hroom, Hself in Hrun2.
  assert (forall (x y : world * outcome unit),
            (if new_schema (self wl)
             then match sendAs (self wl) with Some _ => x | None => y end
             else x) = x) as Hok.
  { intros x y. destruct (new_schema (self wl)); [|done].
    by destruct HsendAs as [sa ->]. }
  cbv zeta in Hrun2. rewrite Hok in Hrun2.
  set (p := pdefhip_node h rt) in *. set (n := hippub_node h (self wl) rt) in *.
  assert (forall d, section_children "properties"
                      (append_to_section "publishers" n
                         (append_to_section "properties" p d))
                    = section_children "properties" d ++ [p]) as Hprops.
  { intros d.
    by rewrite section_children_append_ne, section_children_append. }
  assert (forall d, section_children "publishers"
                      (append_to_section "publishers" n
                         (append_to_section "properties" p d))
                    = section_children "publishers" d ++ [n]) as Hpubs.
  { intros d.
    by rewrite section_children_append, section_children_append_ne. }
  assert (forall d, length (children
                              (append_to_section "publishers" n
                                 (append_to_section "properties" p d)))
                    = length (children d)
                      + match child d "properties" with Some _ => 0 | None => 1 end
                      + match child d "publishers" with Some _ => 0 | None => 1 end)
    as Hlen.
  { intros d.
    rewrite length_children_append, length_children_ensure.
    rewrite length_children_append, length_children_ensure.
    by rewrite child_append_ne. }
  eexists _, p, n. split; [exact Hrun2|]. cbn [xml]. rewrite Hxml.
  split_and!; try done.
  - by rewrite !Hprops, <- app_assoc.
  - by rewrite !Hpubs, <- app_assoc.
  - rewrite (Hlen (append_to_section _ _ _)).
    rewrite child_append_ne, child_append by done.
    rewrite child_append. lia.
Qed.
End Claims.

(** C5: whenever a translation completes, a reported plugin version at or
    above the baseline 0.1.8 gives the notifier node a [buildServerUrl] and
    a [sendAs] field and no [jenkinsUrl] field, and any other version gives
    it a [jenkinsUrl] field and neither of the two; with the order on
    release numbers, 0.1.9 is of the first kind and 0.1.2 of the second. *)
Theorem version_gate :
  (forall (V : VersionScheme) data h w w',
     data !! "hipchat" = Some h ->
     proceeds h = true ->
     gen_xml data w = (w', Return tt) ->
     exists hippub,
       last (section_children "publishers" (xml w')) = Some hippub
       /\ if version_ge
               (parse_version
                  (default "0"
                     (get_plugin_info (registry (self w))
                        "Jenkins HipChat Plugin" !! "version")))
               (parse_version "0.1.8")
          then child_text hippub "buildServerUrl"
               = Some (attr_value (jenkinsUrl (self w')))
               /\ child_text hippub "sendAs"
                  = Some (attr_value (sendAs (self w')))
               /\ child hippub "jenkinsUrl" = None
          else child_text hippub "jenkinsUrl"
               = Some (attr_value (jenkinsUrl (self w')))
               /\ child hippub "buildServerUrl" = None
               /\ child hippub "sendAs" = None)
  /\ (forall data h w w',
        data !! "hipchat" = Some h ->
        proceeds h = true ->
        @gen_xml release_versions data w = (w', Return tt) ->
        get_plugin_info (registry (self w)) "Jenkins HipChat Plugin" !! "version"
        = Some "0.1.9" ->
        exists hippub,
          last (section_children "publishers" (xml w')) = Some hippub
          /\ is_Some (child hippub "buildServerUrl")
          /\ is_Some (child hippub "sendAs")
          /\ child hippub "jenkinsUrl" = None)
  /\ (forall data h w w',
        data !! "hipchat" = Some h ->
        proceeds h = true ->
        @gen_xml release_versions data w = (w', Return tt) ->
        get_plugin_info (registry (self w)) "Jenkins HipChat Plugin" !! "version"
        = Some "0.1.2" ->
        exists hippub,
          last (section_children "publishers" (xml w')) = Some hippub
          /\ is_Some (child hippub "jenkinsUrl")
          /\ child hippub "buildServerUrl" = None
          /\ child hippub "sendAs" = None).
Proof.
  split_and!.
  - intros V data h w w'. apply version_gate_general.
  - intros data h w w' Hh Hp Hrun Hv.
    destruct (version_gate_general data h w w' Hh Hp Hrun)
      as (hippub & Hlast & Hfields).
    unfold new_schema in Hfields. rewrite Hv in Hfields.
    destruct Hfields as (Hurl & HsendAs & Hjenkins).
    exists hippub. unfold child_text in Hurl, HsendAs.
    split_and!; [done | | | done].
    + by destruct (child hippub "buildServerUrl").
    + by destruct (child hippub "sendAs").
  - intros data h w w' Hh Hp Hrun Hv.
    destruct (version_gate_general data h w w' Hh Hp Hrun)
      as (hippub & Hlast & Hfields).
    unfold new_schema in Hfields. rewrite Hv in Hfields.
    destruct Hfields as (Hjenkins & Hurl & HsendAs).
    exists hippub. unfold child_text in Hjenkins.
    split_and!; [done | | done | done].
    by destruct (child hippub "jenkinsUrl").
Qed.

(** The rooms job on a new translator: both nodes read [dev,ops]. *)
Lemma room_text_in_both_nodes_witness :
  rooms_job !! "hipchat" = Some rooms_options
  /\ proceeds rooms_options = true
  /\ exists pdefhip hippub rt,
       last (section_children "properties"
               (xml (fst (gen_xml rooms_job (fresh_world "0.1.9")))))
       = Some pdefhip
       /\ last (section_children "publishers"
                  (xml (fst (gen_xml rooms_job (fresh_world "0.1.9")))))
          = Some hippub
       /\ tag pdefhip = pdefhip_tag /\ tag hippub = hippub_tag
       /\ child_text pdefhip "room" = Some rt
       /\ child_text hippub "room" = Some rt
       /\ (forall l, rooms_options !! "rooms" = Some (VList l)
                     -> rt = VStr (join "," l))
       /\ (forall r, rooms_options !! "rooms" = None
                     -> rooms_options !! "room" = Some r -> rt = r).
Proof.
  split; [reflexivity|]. split; [reflexivity|].
  apply (room_text_in_both_nodes rooms_job rooms_options (fresh_world "0.1.9"));
    [reflexivity | reflexivity | vm_compute; reflexivity].
Defined.

(** The flags of the rooms job, which sets none of them. *)
Lemma notify_flags_written_witness :
  exists pdefhip hippub,
    last (section_children "properties"
            (xml (fst (gen_xml rooms_job (fresh_world "0.1.9")))))
    = Some pdefhip
    /\ last (section_children "publishers"
               (xml (fst (gen_xml rooms_job (fresh_world "0.1.9")))))
       = Some hippub
    /\ (forall node, node = pdefhip \/ node = hippub ->
          child_text node "startNotification"
          = Some (flag_text rooms_options "start-notify")
          /\ forall src tgt, (src, (tgt, true)) ∈ yaml2xmlkeys ->
               child_text node tgt
               = if truthy (dict_get rooms_options src)
                 then Some (flag_text rooms_options src) else None)
    /\ (forall src, rooms_options !! src = None ->
          flag_text rooms_options src = VStr "false"
          /\ truthy (dict_get rooms_options src) = false)
    /\ (forall src b, rooms_options !! src = Some (VBool b) ->
          flag_text rooms_options src = VStr (if b then "true" else "false")
          /\ truthy (dict_get rooms_options src) = b).
Proof.
  apply (notify_flags_written rooms_job rooms_options (fresh_world "0.1.9"));
    [reflexivity | reflexivity | vm_compute; reflexivity].
Defined.

(** The rooms job sets no flag, yet [startNotification] is written to the
    notifier node and [notifySuccess] is not: start-notify is not written
    only when present, and the other flags are not always written. *)
Lemma notify_flags_claim_fails :
  ~ (forall hippub,
       last (section_children "publishers"
               (xml (fst (gen_xml rooms_job (fresh_world "0.1.9")))))
       = Some hippub ->
       is_Some (child hippub "startNotification") ->
       is_Some (rooms_options !! "start-notify"))
  /\ ~ (forall hippub,
          last (section_children "publishers"
                  (xml (fst (gen_xml rooms_job (fresh_world "0.1.9")))))
          = Some hippub ->
          child_text hippub "notifySuccess" = Some (VStr "false")).
Proof.
  split; intros Hclaim.
  - edestruct Hclaim as [v Hv]; [vm_compute; reflexivity | vm_compute; eauto |].
    vm_compute in Hv. discriminate.
  - epose proof (Hclaim _ ltac:(vm_compute; reflexivity)) as Hsucc.
    vm_compute in Hsucc. discriminate.
Qed.

(** A job that is enabled and names no room, on an empty job definition. *)
Lemma format_error_after_property_node_witness :
  exists w',
    gen_xml enabled_job (fresh_world "0.1.9") = (w', Raise YAMLFormatError)
    /\ xml w' = append_to_section "properties" bare_property empty_project
    /\ section_children "properties" (xml w')
       = section_children "properties" empty_project ++ [bare_property]
    /\ child (xml w') "publishers" = child empty_project "publishers".
Proof.
  eapply (format_error_after_property_node enabled_job enabled_options
            (fresh_world "0.1.9"));
    [reflexivity | reflexivity | reflexivity | reflexivity
    | vm_compute; reflexivity].
Defined.

(** The same job: the document is not what it was when the error is
    raised. *)
Lemma format_error_claim_fails :
  ~ (forall w' o,
       gen_xml enabled_job (fresh_world "0.1.9") = (w', o) ->
       o = Raise YAMLFormatError /\ xml w' = xml (fresh_world "0.1.9")).
Proof.
  intros Hclaim.
  destruct (Hclaim _ _ (surjective_pairing _)) as [_ Hxml].
  vm_compute in Hxml. discriminate.
Qed.

(** A job with both keys. *)
Lemma room_or_rooms_required_witness :
  (snd (gen_xml both_job (fresh_world "0.1.9")) = Raise YAMLFormatError
   <-> both_options !! "rooms" = None /\ both_options !! "room" = None)
  /\ (forall l r,
        both_options !! "rooms" = Some (VList l) ->
        both_options !! "room" = Some r ->
        exists pdefhip,
          last (section_children "properties"
                  (xml (fst (gen_xml both_job (fresh_world "0.1.9")))))
          = Some pdefhip
          /\ child_text pdefhip "room" = Some (VStr (join "," l))).
Proof.
  eapply (room_or_rooms_required both_job both_options (fresh_world "0.1.9"));
    [reflexivity | reflexivity | vm_compute; reflexivity].
Defined.

(** With both keys present the translator does not raise the format error. *)
Lemma exactly_one_room_claim_fails :
  ~ (forall w' o,
       gen_xml both_job (fresh_world "0.1.9") = (w', o) ->
       o = Raise YAMLFormatError).
Proof.
  intros Hclaim. pose proof (Hclaim _ _ (surjective_pairing _)) as Ho.
  vm_compute in Ho. discriminate.
Qed.

(** The rooms job against a plugin reporting 0.1.9 and one reporting 0.1.2. *)
Lemma version_gate_witness :
  (exists hippub,
     last (section_children "publishers"
             (xml (fst (gen_xml rooms_job (fresh_world "0.1.9")))))
     = Some hippub
     /\ child_text hippub "buildServerUrl" = Some (VStr "http://ci.example.org/")
     /\ child_text hippub "sendAs" = Some (VStr "Jenkins")
     /\ child hippub "jenkinsUrl" = None)
  /\ (exists hippub,
        last (section_children "publishers"
                (xml (fst (gen_xml rooms_job (fresh_world "0.1.2")))))
        = Some hippub
        /\ child_text hippub "jenkinsUrl" = Some (VStr "http://ci.example.org/")
        /\ child hippub "buildServerUrl" = None
        /\ child hippub "sendAs" = None).
Proof.
  split.
  - destruct (proj1 version_gate release_versions rooms_job rooms_options
                (fresh_world "0.1.9")
                (fst (gen_xml rooms_job (fresh_world "0.1.9"))))
      as (hippub & Hlast & Hfields);
      [reflexivity | reflexivity | vm_compute; reflexivity |].
    exists hippub. split; [exact Hlast | exact Hfields].
  - destruct (proj1 version_gate release_versions rooms_job rooms_options
                (fresh_world "0.1.2")
                (fst (gen_xml rooms_job (fresh_world "0.1.2"))))
      as (hippub & Hlast & Hfields);
      [reflexivity | reflexivity | vm_compute; reflexivity |].
    exists hippub. split; [exact Hlast | exact Hfields].
Defined.

(** C6: on the job [rooms_job] the translation completes and its last two
    steps write the token and a [room] field to the notifier node; the
    [room] field is not empty, it repeats the room text of the property
    node. *)
Theorem publisher_room_repeats_room_text :
  snd (gen_xml rooms_job (fresh_world "0.1.9")) = Return tt
  /\ exists hippub,
       last (section_children "publishers"
               (xml (fst (gen_xml rooms_job (fresh_world "0.1.9")))))
       = Some hippub
       /\ (text <$> last (children hippub)) = Some (VStr "dev,ops")
       /\ child_text hippub "authToken" = Some (VStr "s3cret")
       /\ child_text hippub "room" = Some (VStr "dev,ops").
Proof.
  split; [by vm_compute|].
  eexists. split; [vm_compute; reflexivity|]. by vm_compute.
Qed.

(** C7: with a [hipchat] section that has no [authtoken], the loader and
    the translator end with [NoOptionError], an exception the caller can
    catch: no fatal record is logged and the process does not exit. *)
Theorem missing_token_is_not_fatal :
  snd (_load_global_data no_token_world) = Raise NoOptionError
  /\ snd (gen_xml rooms_job no_token_world) = Raise NoOptionError
  /\ trace (fst (gen_xml rooms_job no_token_world))
     = [ConfigGet "hipchat" "authtoken"]
  /\ xml (fst (gen_xml rooms_job no_token_world)) = empty_project.
Proof. by vm_compute. Qed.

(** No mapping, a disabled mapping and an empty mapping leave the world as
    it is; the deprecated single room proceeds. *)
Lemma disabled_or_empty_does_nothing_witness :
  gen_xml ∅ (fresh_world "0.1.9") = (fresh_world "0.1.9", Return tt)
  /\ gen_xml {[ "hipchat" := {[ "enabled" := VBool false;
                                "rooms" := VList ["dev"] ]} ]}
       (fresh_world "0.1.9")
     = (fresh_world "0.1.9", Return tt)
  /\ gen_xml empty_job (fresh_world "0.1.9")
     = (fresh_world "0.1.9", Return tt)
  /\ fst (gen_xml room_job (fresh_world "0.1.9")) <> fresh_world "0.1.9".
Proof.
  split_and!.
  - apply (proj1 (disabled_or_empty_does_nothing ∅ (fresh_world "0.1.9"))).
    reflexivity.
  - eapply (proj1 (proj2 (disabled_or_empty_does_nothing _ (fresh_world "0.1.9"))));
      reflexivity.
  - apply (proj1 (proj2 (proj2
             (disabled_or_empty_does_nothing empty_job (fresh_world "0.1.9"))))).
    reflexivity.
  - apply (proj2 (proj2 (proj2
             (disabled_or_empty_does_nothing room_job (fresh_world "0.1.9"))))
             room_options); [reflexivity | | reflexivity].
    intros Hempty. apply (f_equal (fun m => m !! "room")) in Hempty.
    vm_compute in Hempty. discriminate.
Defined.

(** A mapping that is present and empty has no [enabled] key, and the
    translation does not proceed. *)
Lemma empty_mapping_claim_fails :
  ~ (forall h, empty_job !! "hipchat" = Some h ->
               h !! "enabled" = None ->
               gen_xml empty_job (fresh_world "0.1.9")
               = (_load_global_data;; translated h) (fresh_world "0.1.9")
               /\ fst (gen_xml empty_job (fresh_world "0.1.9"))
                  <> fresh_world "0.1.9").
Proof.
  intros Hclaim. destruct (Hclaim ∅ eq_refl eq_refl) as [_ Hchanged].
  apply Hchanged. by vm_compute.
Qed.

(** Three more invocations after the one that loaded the sample token. *)
Lemma loader_idempotent_witness :
  for_each (replicate 3 tt) (fun _ => _load_global_data)
    (fst (_load_global_data (fresh_world "0.1.9")))
  = (fst (_load_global_data (fresh_world "0.1.9")), Return tt).
Proof.
  apply (loader_idempotent (fresh_world "0.1.9") _
           (snd (_load_global_data (fresh_world "0.1.9"))) "s3cret" 3);
    [apply surjective_pairing | reflexivity | discriminate].
Defined.

(** The rooms job translated twice on an empty job definition. *)
Lemma gen_xml_twice_witness :
  exists w2 pdefhip hippub,
    gen_xml rooms_job (fst (gen_xml rooms_job (fresh_world "0.1.9")))
    = (w2, Return tt)
    /\ section_children "properties" (xml w2) = [pdefhip; pdefhip]
    /\ section_children "publishers" (xml w2) = [hippub; hippub]
    /\ length (children (xml w2)) = 2.
Proof.
  destruct (gen_xml_twice rooms_job rooms_options (fresh_world "0.1.9")
              (fst (gen_xml rooms_job (fresh_world "0.1.9"))))
    as (w2 & p & n & Hrun & _ & _ & _ & _ & Hp & Hn & Hlen1 & Hlen2);
    [reflexivity | reflexivity | vm_compute; reflexivity |].
  exists w2, p, n. split; [exact Hrun|]. split; [exact Hp|].
  split; [exact Hn|]. rewrite Hlen2. exact Hlen1.
Defined.

(** * Further properties of the loader and the translator *)

Section Growth.
Implicit Types (d : element) (ts : list string).

Lemma grows_on_refl ts d : grows_on ts d d.
Proof. split_and!; try done. intros i c Hc. exists c. by split_and!. Qed.

Lemma grows_on_trans ts d1 d2 d3 :
  grows_on ts d1 d2 -> grows_on ts d2 d3 -> grows_on ts d1 d3.
Proof.
  intros (Ht1 & Hx1 & H1) (Ht2 & Hx2 & H2). split_and!; try congruence.
  intros i c Hc. destruct (H1 i c Hc) as (c' & Hc' & Htag & Htext & Hpre & Hsame).
  destruct (H2 i c' Hc') as (c'' & Hc'' & Htag' & Htext' & Hpre' & Hsame').
  exists c''. split_and!; try congruence.
  - by etrans.
  - intros Hnot. rewrite Hsame' by congruence. by apply Hsame.
Qed.

Lemma grows_on_append ts t n d :
  t ∈ ts -> grows_on ts d (append_to_section t n d).
Proof.
  intros Hin. unfold append_to_section.
  destruct (list_find (has_tag t) (children d)) as [[i0 c0]|] eqn:Hf.
  - apply list_find_Some in Hf as (Hi0 & Ht & _).
    split_and!; try done. intros i c Hc. simpl.
    destruct (decide (i = i0)) as [->|Hne].
    + rewrite Hi0 in Hc. injection Hc as <-.
      exists (add_child n c0). rewrite list_lookup_alter_eq, Hi0.
      split_and!; try done.
      * by apply prefix_app_r.
      * intros Hnot. by rewrite Ht in Hnot.
    + exists c. rewrite list_lookup_alter_ne by done. by split_and!.
  - split_and!; try done. intros i c Hc. simpl. exists c.
    rewrite (lookup_app_l_Some _ _ _ _ Hc). by split_and!.
Qed.
End Growth.

Section Extras.
Context `{VersionScheme}.
Implicit Types (h : gmap string value) (w : world).

Lemma gen_xml_skips data h w :
  data !! "hipchat" = Some h -> proceeds h = false ->
  gen_xml data w = (w, Return tt).
Proof.
  intros Hh Hp. unfold gen_xml. rewrite Hh.
  unfold proceeds in Hp. rewrite <- negb_andb, Hp. done.
Qed.

Lemma translated_grows h w :
  grows_on ["properties"; "publishers"] (xml w) (xml (fst (translated h w))).
Proof.
  assert (forall n d, grows_on ["properties"; "publishers"] d
                        (append_to_section "properties" n d)) as Hprops.
  { intros n d. apply grows_on_append. set_solver. }
  assert (forall n d, grows_on ["properties"; "publishers"] d
                        (append_to_section "publishers" n d)) as Hpubs.
  { intros n d. apply grows_on_append. set_solver. }
  unfold translated.
  destruct (resolve_room h) as [[e|rt] evs]; [apply Hprops|].
  destruct (new_schema (self w)), (sendAs (self w)); cbn [fst xml];
    (eapply grows_on_trans; [apply Hprops | apply Hpubs]).
Qed.

(** X6: whatever its outcome, [gen_xml] only appends below the properties
    and publishers children of [xml_parent]: the parent keeps its tag and
    text, every child it had keeps its position, tag and text and still
    starts with the children it had, and a child with another tag is left
    exactly as it was. *)
Theorem gen_xml_only_appends data w :
  grows_on ["properties"; "publishers"] (xml w) (xml (fst (gen_xml data w))).
Proof.
  destruct (data !! "hipchat") as [h|] eqn:Hh.
  - destruct (proceeds h) eqn:Hp.
    + pose proof Hp as Hp'. apply andb_true_iff in Hp' as [Hne Hen].
      rewrite (gen_xml_enabled data h w Hh Hne Hen).
      unfold mbind, M_bind. pose proof (load_xml w) as Hxml.
      destruct (_load_global_data w) as [w1 [[]|e|c]]; cbn [fst] in *.
      * rewrite <- Hxml. apply translated_grows.
      * rewrite Hxml. apply grows_on_refl.
      * rewrite Hxml. apply grows_on_refl.
    + rewrite (gen_xml_skips data h w Hh Hp). apply grows_on_refl.
  - unfold gen_xml. rewrite Hh. apply grows_on_refl.
Qed.

(** X7: [gen_xml] returns with the world as it was exactly when the mapping
    is absent or empty or its ['enabled'] value, true when missing, is
    falsy; in every other case something has been read, logged or
    appended. *)
Theorem gen_xml_noop_iff data w :
  gen_xml data w = (w, Return tt)
  <-> data !! "hipchat" = None
      \/ exists h, data !! "hipchat" = Some h
                   /\ (h = ∅
                       \/ truthy (dict_get_default h "enabled" (VBool true))
                          = false).
Proof.
  split.
  - intros Hrun. destruct (data !! "hipchat") as [h|] eqn:Hh; [|by left].
    right. exists h. split; [done|].
    destruct (proceeds h) eqn:Hp.
    + exfalso. apply (gen_xml_proceeds_changes data h w Hh Hp).
      by rewrite Hrun.
    + unfold proceeds, dict_truthy in Hp.
      apply andb_false_iff in Hp as [Hp|Hp]; [left|by right].
      apply negb_false_iff in Hp. by apply bool_decide_eq_true in Hp.
  - intros [Hh|(h & Hh & Hcase)].
    + unfold gen_xml. by rewrite Hh.
    + apply (gen_xml_skips data h w Hh). unfold proceeds, dict_truthy.
      destruct Hcase as [->|Hen].
      * by rewrite bool_decide_eq_true_2.
      * rewrite Hen. apply andb_false_r.
Qed.
Lemma child_hippub_authToken h s rt :
  child_text (hippub_node h s rt) "authToken" = Some (attr_value (authToken s)).
Proof.
  unfold child_text. rewrite !child_first_tagged.
  unfold hippub_node; cbn [children]. rewrite !first_tagged_app.
  rewrite !first_tagged_flags_other by compute_done.
  unfold server_fields. by destruct (new_schema s).
Qed.

(** What a returning loader adds to the trace: nothing, or its three reads. *)
Lemma load_trace_return w w1 :
  _load_global_data w = (w1, Return tt) ->
  trace w1 = trace w
  \/ (truthy_attr (authToken (self w)) = false
      /\ trace w1 = trace w ++ [ConfigGet "hipchat" "authtoken";
                                ConfigGet "jenkins" "url";
                                ConfigGet "hipchat" "send-as"]).
Proof.
  rewrite load_loaded. unfold loaded.
  destruct (truthy_attr (authToken (self w))); [intros [= <-]; by left|].
  repeat case_match; intros [= <-]; right; split; [done|]. cbn [trace].
  by rewrite <- !app_assoc.
Qed.

Lemma resolve_room_events h rt evs :
  resolve_room h = (inr rt, evs) ->
  evs = match h !! "rooms" with Some _ => [] | None => [deprecation] end.
Proof.
  unfold resolve_room, deprecation.
  destruct (h !! "rooms") as [[]|]; try destruct (h !! "room"); congruence.
Qed.

(** X1: on a translator without a cached token, when the configuration
    holds a non-empty token, the server URL and the send-as name, and the
    config names its rooms as a list or a single room, the translation
    returns: the three values are cached on the instance, each is read
    once, and the token and the URL are the texts written to the notifier
    node. *)
Theorem gen_xml_succeeds data h w tok url sa :
  data !! "hipchat" = Some h ->
  proceeds h = true ->
  truthy_attr (authToken (self w)) = false ->
  config_lookup (global_config (registry (self w))) "hipchat" "authtoken"
  = inr tok ->
  tok <> "" ->
  config_lookup (global_config (registry (self w))) "jenkins" "url" = inr url ->
  config_lookup (global_config (registry (self w))) "hipchat" "send-as"
  = inr sa ->
  (exists l, h !! "rooms" = Some (VList l))
  \/ (h !! "rooms" = None /\ is_Some (h !! "room")) ->
  exists w' hippub,
    gen_xml data w = (w', Return tt)
    /\ self w' = {| authToken := Some tok; jenkinsUrl := Some url;
                    sendAs := Some sa; registry := registry (self w) |}
    /\ filter is_config_get (trace w')
       = filter is_config_get (trace w)
         ++ [ConfigGet "hipchat" "authtoken"; ConfigGet "jenkins" "url";
             ConfigGet "hipchat" "send-as"]
    /\ last (section_children "publishers" (xml w')) = Some hippub
    /\ child_text hippub "authToken" = Some (VStr tok)
    /\ child_text hippub (if new_schema (self w) then "buildServerUrl"
                          else "jenkinsUrl") = Some (VStr url).
Proof.
  intros Hh Hp Htok Hcfg Hne Hurl Hsa Hroom.
  set (s1 := {| authToken := Some tok; jenkinsUrl := Some url;
                sendAs := Some sa; registry := registry (self w) |}).
  assert (_load_global_data w
          = (W s1 (xml w)
               (((trace w ++ [ConfigGet "hipchat" "authtoken"])
                 ++ [ConfigGet "jenkins" "url"])
                ++ [ConfigGet "hipchat" "send-as"]), Return tt)) as Hload.
  { rewrite load_loaded. unfold loaded. rewrite Htok, Hcfg, Hurl, Hsa.
    by apply String.eqb_neq in Hne as ->. }
  rewrite (gen_xml_after_load data h w _ Hh Hp Hload).
  assert (exists rt, resolve_room h
                     = (inr rt, match h !! "rooms" with
                                | Some _ => []
                                | None => [deprecation]
                                end)) as [rt Hrt].
  { unfold resolve_room.
    destruct Hroom as [[l ->]|[-> [r ->]]]; eauto. }
  unfold translated. rewrite Hrt. cbn [self xml trace sendAs].
  assert (new_schema s1 = new_schema (self w)) as Hschema by done.
  eexists _, (hippub_node h s1 rt).
  split; [by destruct (new_schema s1)|]. split_and!.
  - done.
  - cbn [trace]. rewrite !filter_app. cbn.
    rewrite <- !app_assoc. f_equal.
    by destruct (h !! "rooms").
  - cbn [xml]. rewrite section_children_append. apply last_snoc.
  - apply child_hippub_authToken.
  - rewrite <- Hschema. pose proof (child_hippub_server h s1 rt) as Hs.
    destruct (new_schema s1); by destruct Hs as [-> _].
Qed.

(** X2: with no cached token and a blank token in the configuration, an
    enabled job ends the process with exit code 1 after one read and one
    fatal record; the document is as it was, and the blank token left on
    the instance is falsy, so it does not count as cached. *)
Theorem blank_token_is_fatal data h w :
  data !! "hipchat" = Some h ->
  proceeds h = true ->
  truthy_attr (authToken (self w)) = false ->
  config_lookup (global_config (registry (self w))) "hipchat" "authtoken"
  = inr "" ->
  exists w',
    gen_xml data w = (w', Exit 1)
    /\ xml w' = xml w
    /\ trace w' = trace w ++ [ConfigGet "hipchat" "authtoken";
                              LogFatal fatal_msg JenkinsJobsException]
    /\ authToken (self w') = Some ""
    /\ truthy_attr (authToken (self w')) = false.
Proof.
  intros Hh Hp Htok Hcfg. apply andb_true_iff in Hp as [Hne Hen].
  rewrite (gen_xml_enabled data h w Hh Hne Hen).
  unfold mbind, M_bind. rewrite load_loaded. unfold loaded.
  rewrite Htok, Hcfg. cbn [String.eqb]. eexists. split; [done|].
  cbn [xml trace self authToken]. split_and!; try done.
  by rewrite <- app_assoc.
Qed.

(** X3: with no cached token and no [hipchat] section in the
    configuration, an enabled job ends the process with exit code 1 after
    one read and one fatal record; the document and the instance are as
    they were. *)
Theorem missing_section_is_fatal data h w :
  data !! "hipchat" = Some h ->
  proceeds h = true ->
  truthy_attr (authToken (self w)) = false ->
  sections (global_config (registry (self w))) !! "hipchat" = None ->
  exists w',
    gen_xml data w = (w', Exit 1)
    /\ xml w' = xml w
    /\ self w' = self w
    /\ trace w' = trace w ++ [ConfigGet "hipchat" "authtoken";
                              LogFatal fatal_msg NoSectionError].
Proof.
  intros Hh Hp Htok Hcfg. apply andb_true_iff in Hp as [Hne Hen].
  rewrite (gen_xml_enabled data h w Hh Hne Hen).
  unfold mbind, M_bind. rewrite load_loaded. unfold loaded, config_lookup.
  rewrite Htok, Hcfg. eexists. split; [done|].
  cbn [xml trace self]. split_and!; try done.
  by rewrite <- app_assoc.
Qed.

(** X4: when the token is read but the server URL or the send-as name is
    not in the configuration, the lookup error reaches the caller as an
    exception: the process does not exit, no fatal record is logged, the
    document is as it was, and the token stays cached while the send-as
    name is still not set. *)
Theorem later_lookup_error_propagates data h w tok e :
  data !! "hipchat" = Some h ->
  proceeds h = true ->
  truthy_attr (authToken (self w)) = false ->
  config_lookup (global_config (registry (self w))) "hipchat" "authtoken"
  = inr tok ->
  tok <> "" ->
  config_lookup (global_config (registry (self w))) "jenkins" "url" = inl e
  \/ ((exists url,
          config_lookup (global_config (registry (self w))) "jenkins" "url"
          = inr url)
      /\ config_lookup (global_config (registry (self w))) "hipchat" "send-as"
         = inl e) ->
  exists w',
    gen_xml data w = (w', Raise e)
    /\ xml w' = xml w
    /\ authToken (self w') = Some tok
    /\ sendAs (self w') = sendAs (self w)
    /\ filter (fun ev => negb (is_config_get ev)) (trace w')
       = filter (fun ev => negb (is_config_get ev)) (trace w).
Proof.
  intros Hh Hp Htok Hcfg Hne Hfail. apply andb_true_iff in Hp as [Hnemp Hen].
  rewrite (gen_xml_enabled data h w Hh Hnemp Hen).
  unfold mbind, M_bind. rewrite load_loaded. unfold loaded.
  rewrite Htok, Hcfg. apply String.eqb_neq in Hne as ->.
  destruct Hfail as [Hurl|[[url Hurl] Hsa]]; rewrite Hurl, ?Hsa;
    (eexists; split; [done|]); cbn [xml trace self authToken sendAs];
    (split_and!; try done); rewrite !filter_app; cbn; by rewrite !app_nil_r.
Qed.

(** X5: on an instance whose token is cached but whose send-as name was
    never set, the loader is skipped.  Against a plugin at or above the
    baseline the translation then raises [AttributeError], after the
    property node and a notifier node were appended: the notifier has its
    [buildServerUrl] and no [sendAs], [authToken] or [room].  Against an
    older plugin the translation returns. *)
Theorem unset_send_as data h w l :
  data !! "hipchat" = Some h ->
  proceeds h = true ->
  truthy_attr (authToken (self w)) = true ->
  sendAs (self w) = None ->
  h !! "rooms" = Some (VList l) ->
  (new_schema (self w) = true ->
   exists w' hippub,
     gen_xml data w = (w', Raise AttributeError)
     /\ self w' = self w
     /\ last (section_children "properties" (xml w'))
        = Some (pdefhip_node h (VStr (join "," l)))
     /\ last (section_children "publishers" (xml w')) = Some hippub
     /\ is_Some (child hippub "buildServerUrl")
     /\ child hippub "sendAs" = None
     /\ child hippub "authToken" = None
     /\ child hippub "room" = None)
  /\ (new_schema (self w) = false ->
      exists w', gen_xml data w = (w', Return tt) /\ self w' = self w).
Proof.
  intros Hh Hp Htok Hsa Hrooms.
  rewrite (gen_xml_after_load data h w w Hh Hp (load_cached w Htok)).
  unfold translated, resolve_room. rewrite Hrooms, Hsa.
  split; intros ->.
  - eexists _, _. split; [done|]. cbn [self xml]. split_and!.
    + done.
    + rewrite section_children_append_ne, section_children_append by done.
      apply last_snoc.
    + rewrite section_children_append. apply last_snoc.
    + rewrite child_first_tagged; cbn [children]. rewrite first_tagged_app.
      by rewrite first_tagged_flags_other by compute_done.
    + rewrite child_first_tagged; cbn [children]. rewrite first_tagged_app.
      by rewrite first_tagged_flags_other by compute_done.
    + rewrite child_first_tagged; cbn [children]. rewrite first_tagged_app.
      by rewrite first_tagged_flags_other by compute_done.
    + rewrite child_first_tagged; cbn [children]. rewrite first_tagged_app.
      by rewrite first_tagged_flags_other by compute_done.
  - by eexists.
Qed.

(** X8: a translation that returns logs the deprecation warning once when
    the room comes from ['room'], and no warning at all when ['rooms'] is
    given, whether ['room'] is there too or not. *)
Theorem deprecation_warning data h w w' :
  data !! "hipchat" = Some h ->
  proceeds h = true ->
  gen_xml data w = (w', Return tt) ->
  filter is_warning (trace w')
  = filter is_warning (trace w)
    ++ match h !! "rooms" with Some _ => [] | None => [deprecation] end.
Proof.
  intros Hh Hp Hrun.
  destruct (gen_xml_returns data h w w' Hh Hp Hrun)
    as (w1 & rt & evs & Hload & Hroom & _ & -> & _ & _).
  rewrite (resolve_room_events h rt evs Hroom).
  rewrite !filter_app.
  destruct (load_trace_return w w1 Hload) as [->|[_ ->]];
    rewrite ?filter_app; cbn; rewrite !app_nil_r;
    by destruct (h !! "rooms").
Qed.

(** X9: when ['rooms'] is a plain string the join runs over its
    characters: the room text of both nodes is the string with a comma
    between every two characters. *)
Theorem rooms_string_is_split data h w w' r :
  data !! "hipchat" = Some h ->
  proceeds h = true ->
  h !! "rooms" = Some (VStr r) ->
  gen_xml data w = (w', Return tt) ->
  exists pdefhip hippub,
    last (section_children "properties" (xml w')) = Some pdefhip
    /\ last (section_children "publishers" (xml w')) = Some hippub
    /\ child_text pdefhip "room" = Some (VStr (join "," (chars r)))
    /\ child_text hippub "room" = Some (VStr (join "," (chars r))).
Proof.
  intros Hh Hp Hrooms Hrun.
  destruct (gen_xml_returns data h w w' Hh Hp Hrun)
    as (w1 & rt & evs & _ & Hroom & _ & _ & Hxml & _).
  unfold resolve_room in Hroom. rewrite Hrooms in Hroom.
  injection Hroom as <- _.
  exists (pdefhip_node h (VStr (join "," (chars r)))),
    (hippub_node h (self w1) (VStr (join "," (chars r)))).
  rewrite Hxml. split_and!.
  - rewrite section_children_append_ne, section_children_append by done.
    apply last_snoc.
  - rewrite section_children_append. apply last_snoc.
  - apply child_pdefhip_room.
  - apply child_hippub_room.
Qed.

(** X10: when ['rooms'] is present but holds [None] or a boolean, the join
    raises [TypeError] once the credentials are loaded, also when ['room']
    is given: the property node with its empty [room] child has been
    appended, the publishers section is as it was, and nothing is logged. *)
Theorem rooms_not_iterable data h w w1 v :
  data !! "hipchat" = Some h ->
  proceeds h = true ->
  h !! "rooms" = Some v ->
  v = VNone \/ (exists b, v = VBool b) ->
  _load_global_data w = (w1, Return tt) ->
  exists w',
    gen_xml data w = (w', Raise TypeError)
    /\ xml w' = append_to_section "properties" bare_property (xml w)
    /\ child (xml w') "publishers" = child (xml w) "publishers"
    /\ trace w' = trace w1.
Proof.
  intros Hh Hp Hrooms Hv Hload.
  rewrite (gen_xml_after_load data h w w1 Hh Hp Hload).
  pose proof (load_xml w) as Hxml. rewrite Hload in Hxml. simpl in Hxml.
  unfold translated, resolve_room. rewrite Hrooms, Hxml.
  destruct Hv as [->|[b ->]]; (eexists; split; [done|]); cbn [xml trace];
    (split_and!; [done | by apply child_append_ne | by rewrite app_nil_r]).
Qed.

Lemma flag_fields_tags h ks :
  tag <$> flag_fields h ks `sublist_of` targets ks.
Proof.
  induction ks as [|[src [tgt opt]] ks IH]; [done|].
  rewrite flag_fields_cons, fmap_app. unfold flag_field.
  destruct (negb opt || truthy (dict_get h src)); simpl.
  - by apply sublist_skip.
  - by apply sublist_cons.
Qed.

(** X11: in a translation that returns, no tag occurs twice among the
    children of the property node, nor among those of the notifier node. *)
Theorem nodes_have_distinct_tags data h w w' :
  data !! "hipchat" = Some h ->
  proceeds h = true ->
  gen_xml data w = (w', Return tt) ->
  exists pdefhip hippub,
    last (section_children "properties" (xml w')) = Some pdefhip
    /\ last (section_children "publishers" (xml w')) = Some hippub
    /\ NoDup (tag <$> children pdefhip)
    /\ NoDup (tag <$> children hippub).
Proof.
  intros Hh Hp Hrun.
  destruct (gen_xml_returns data h w w' Hh Hp Hrun)
    as (w1 & rt & evs & _ & _ & _ & _ & Hxml & _).
  exists (pdefhip_node h rt), (hippub_node h (self w1) rt).
  rewrite Hxml. split_and!.
  - rewrite section_children_append_ne, section_children_append by done.
    apply last_snoc.
  - rewrite section_children_append. apply last_snoc.
  - unfold pdefhip_node; cbn [children]. rewrite fmap_cons; cbn [tag].
    apply (sublist_NoDup _ ("room" :: targets yaml2xmlkeys));
      [compute_done|].
    apply sublist_skip, flag_fields_tags.
  - unfold hippub_node, server_fields; cbn [children].
    rewrite !fmap_app.
    destruct (new_schema (self w1)); cbn [fmap list_fmap tag].
    + apply (sublist_NoDup _ (targets yaml2xmlkeys
                               ++ ["buildServerUrl"; "sendAs"]
                               ++ ["authToken"; "room"])); [compute_done|].
      apply sublist_app; [apply flag_fields_tags|done].
    + apply (sublist_NoDup _ (targets yaml2xmlkeys
                               ++ ["jenkinsUrl"]
                               ++ ["authToken"; "room"])); [compute_done|].
      apply sublist_app; [apply flag_fields_tags|done].
Qed.

(** X13: once a translation has returned, the credentials are not read
    again: a later call on the same instance, with any data and whatever
    its outcome, adds no configuration read to the trace and leaves the
    cached values as they are. *)
Theorem credentials_read_once data h w w1 data' :
  data !! "hipchat" = Some h ->
  proceeds h = true ->
  gen_xml data w = (w1, Return tt) ->
  filter is_config_get (trace (fst (gen_xml data' w1)))
  = filter is_config_get (trace w1)
  /\ self (fst (gen_xml data' w1)) = self w1.
Proof.
  intros Hh Hp Hrun.
  destruct (gen_xml_returns data h w w1 Hh Hp Hrun)
    as (wl & _ & _ & Hload & _ & Hself & _ & _ & _).
  assert (truthy_attr (authToken (self w1)) = true) as Htok.
  { rewrite Hself. by apply (load_returns w). }
  destruct (data' !! "hipchat") as [h'|] eqn:Hh'.
  - destruct (proceeds h') eqn:Hp'.
    + rewrite (gen_xml_after_load data' h' w1 w1 Hh' Hp' (load_cached w1 Htok)).
      unfold translated.
      destruct (resolve_room h') as [[e|rt] evs] eqn:Hroom.
      * cbn [fst trace self]. split; [|done].
        rewrite filter_app.
        assert (evs = []) as ->; [|by rewrite app_nil_r].
        revert Hroom. unfold resolve_room.
        repeat case_match; congruence.
      * rewrite (resolve_room_events h' rt evs Hroom).
        destruct (new_schema (self w1)), (sendAs (self w1));
          cbn [fst trace self]; (split; [|done]);
          rewrite !filter_app; destruct (h' !! "rooms"); cbn;
          by rewrite !app_nil_r.
    + by rewrite (gen_xml_skips data' h' w1 Hh' Hp').
  - unfold gen_xml. by rewrite Hh'.
Qed.

Lemma append_to_section_new t n d :
  child d t = None ->
  append_to_section t n d = add_child (Element t VNone [n]) d.
Proof.
  unfold child, first_tagged, append_to_section.
  by destruct (list_find (has_tag t) (children d)) as [[i c]|].
Qed.

(** X14: when [xml_parent] has neither section, a translation that returns
    adds exactly two children at its end, first the new properties section
    holding the property node and then the new publishers section holding
    the notifier node; the children it had come first, unchanged. *)
Theorem sections_created_in_order data h w w' :
  data !! "hipchat" = Some h ->
  proceeds h = true ->
  child (xml w) "properties" = None ->
  child (xml w) "publishers" = None ->
  gen_xml data w = (w', Return tt) ->
  exists pdefhip hippub,
    children (xml w')
    = children (xml w)
      ++ [Element "properties" VNone [pdefhip];
          Element "publishers" VNone [hippub]]
    /\ tag pdefhip = pdefhip_tag /\ tag hippub = hippub_tag.
Proof.
  intros Hh Hp Hprops Hpubs Hrun.
  destruct (gen_xml_returns data h w w' Hh Hp Hrun)
    as (w1 & rt & evs & _ & _ & _ & _ & Hxml & _).
  exists (pdefhip_node h rt), (hippub_node h (self w1) rt).
  split; [|done]. rewrite Hxml.
  rewrite (append_to_section_new "publishers").
  - rewrite (append_to_section_new "properties" _ _ Hprops).
    cbn [add_child children]. by rewrite <- app_assoc.
  - by rewrite child_append_ne.
Qed.

End Extras.

(** X12: when the plugin information has no version, the translator
    compares the version 0: with the order on release numbers a
    translation that returns writes [jenkinsUrl] and neither
    [buildServerUrl] nor [sendAs]. *)
Theorem unknown_version_is_legacy data h w w' :
  data !! "hipchat" = Some h ->
  proceeds h = true ->
  get_plugin_info (registry (self w)) "Jenkins HipChat Plugin" !! "version"
  = None ->
  @gen_xml release_versions data w = (w', Return tt) ->
  exists hippub,
    last (section_children "publishers" (xml w')) = Some hippub
    /\ child_text hippub "jenkinsUrl" = Some (attr_value (jenkinsUrl (self w')))
    /\ child hippub "buildServerUrl" = None
    /\ child hippub "sendAs" = None.
Proof.
  intros Hh Hp Hv Hrun.
  destruct (version_gate_general data h w w' Hh Hp Hrun)
    as (hippub & Hlast & Hfields).
  unfold new_schema in Hfields. rewrite Hv in Hfields.
  exists hippub. by split.
Qed.

(** The rooms job on a new translator with the sample configuration. *)
Lemma gen_xml_succeeds_witness :
  exists w' hippub,
    gen_xml rooms_job (fresh_world "0.1.2") = (w', Return tt)
    /\ self w' = {| authToken := Some "s3cret";
                    jenkinsUrl := Some "http://ci.example.org/";
                    sendAs := Some "Jenkins";
                    registry := sample_registry "0.1.2" |}
    /\ filter is_config_get (trace w')
       = [ConfigGet "hipchat" "authtoken"; ConfigGet "jenkins" "url";
          ConfigGet "hipchat" "send-as"]
    /\ last (section_children "publishers" (xml w')) = Some hippub
    /\ child_text hippub "authToken" = Some (VStr "s3cret")
    /\ child_text hippub "jenkinsUrl" = Some (VStr "http://ci.example.org/").
Proof.
  exact (gen_xml_succeeds rooms_job rooms_options (fresh_world "0.1.2")
           "s3cret" "http://ci.example.org/" "Jenkins"
           eq_refl eq_refl eq_refl eq_refl ltac:(discriminate) eq_refl eq_refl
           (or_introl (ex_intro _ ["dev"; "ops"] eq_refl))).
Defined.

(** The rooms job against a configuration whose token is blank. *)
Lemma blank_token_is_fatal_witness :
  exists w',
    gen_xml rooms_job (world_with blank_token_config ∅) = (w', Exit 1)
    /\ xml w' = empty_project
    /\ trace w' = [ConfigGet "hipchat" "authtoken";
                   LogFatal fatal_msg JenkinsJobsException]
    /\ authToken (self w') = Some ""
    /\ truthy_attr (authToken (self w')) = false.
Proof.
  apply (blank_token_is_fatal rooms_job rooms_options
           (world_with blank_token_config ∅)); reflexivity.
Defined.

(** The rooms job against a configuration without a [hipchat] section. *)
Lemma missing_section_is_fatal_witness :
  exists w',
    gen_xml rooms_job (world_with no_hipchat_config ∅) = (w', Exit 1)
    /\ xml w' = empty_project
    /\ self w' = self (world_with no_hipchat_config ∅)
    /\ trace w' = [ConfigGet "hipchat" "authtoken";
                   LogFatal fatal_msg NoSectionError].
Proof.
  apply (missing_section_is_fatal rooms_job rooms_options
           (world_with no_hipchat_config ∅)); reflexivity.
Defined.

(** The rooms job against a configuration without a [jenkins] section. *)
Lemma later_lookup_error_propagates_witness :
  exists w',
    gen_xml rooms_job (world_with no_jenkins_config ∅)
    = (w', Raise NoSectionError)
    /\ xml w' = empty_project
    /\ authToken (self w') = Some "s3cret"
    /\ sendAs (self w') = None
    /\ filter (fun ev => negb (is_config_get ev)) (trace w') = [].
Proof.
  apply (later_lookup_error_propagates rooms_job rooms_options
           (world_with no_jenkins_config ∅) "s3cret" NoSectionError);
    [reflexivity | reflexivity | reflexivity | reflexivity | discriminate
    | left; reflexivity].
Defined.

(** The rooms job once more, on the instance that the failed load of the
    configuration without a [jenkins] section has left. *)
Lemma unset_send_as_witness :
  (exists w' hippub,
     gen_xml rooms_job
       (fst (gen_xml rooms_job
               (world_with no_jenkins_config {[ "version" := "0.1.9" ]})))
     = (w', Raise AttributeError)
     /\ last (section_children "publishers" (xml w')) = Some hippub
     /\ is_Some (child hippub "buildServerUrl")
     /\ child hippub "authToken" = None)
  /\ (exists w',
        gen_xml rooms_job
          (fst (gen_xml rooms_job
                  (world_with no_jenkins_config {[ "version" := "0.1.2" ]})))
        = (w', Return tt)).
Proof.
  split.
  - destruct (unset_send_as rooms_job rooms_options
                (fst (gen_xml rooms_job
                        (world_with no_jenkins_config {[ "version" := "0.1.9" ]})))
                ["dev"; "ops"]) as [Hnew _];
      [reflexivity | reflexivity | reflexivity | reflexivity | reflexivity |].
    destruct Hnew as (w' & hippub & Hrun & _ & _ & Hlast & Hurl & _ & Htok & _);
      [reflexivity|].
    exists w', hippub. split; [exact Hrun|]. split; [exact Hlast|].
    split; [exact Hurl | exact Htok].
  - destruct (unset_send_as rooms_job rooms_options
                (fst (gen_xml rooms_job
                        (world_with no_jenkins_config {[ "version" := "0.1.2" ]})))
                ["dev"; "ops"]) as [_ Hold];
      [reflexivity | reflexivity | reflexivity | reflexivity | reflexivity |].
    destruct Hold as (w' & Hrun & _); [reflexivity|].
    exists w'. exact Hrun.
Defined.

(** The single room logs the warning, the rooms list does not. *)
Lemma deprecation_warning_witness :
  filter is_warning (trace (fst (gen_xml room_job (fresh_world "0.1.9"))))
  = [deprecation]
  /\ filter is_warning (trace (fst (gen_xml both_job (fresh_world "0.1.9"))))
     = [].
Proof.
  split.
  - apply (deprecation_warning room_job room_options (fresh_world "0.1.9"));
      [reflexivity | reflexivity | vm_compute; reflexivity].
  - apply (deprecation_warning both_job both_options (fresh_world "0.1.9"));
      [reflexivity | reflexivity | vm_compute; reflexivity].
Defined.

(** The rooms given as the string [ab]. *)
Lemma rooms_string_is_split_witness :
  exists pdefhip hippub,
    last (section_children "properties"
            (xml (fst (gen_xml string_rooms_job (fresh_world "0.1.9")))))
    = Some pdefhip
    /\ last (section_children "publishers"
               (xml (fst (gen_xml string_rooms_job (fresh_world "0.1.9")))))
       = Some hippub
    /\ child_text pdefhip "room" = Some (VStr "a,b")
    /\ child_text hippub "room" = Some (VStr "a,b").
Proof.
  apply (rooms_string_is_split string_rooms_job string_rooms_options
           (fresh_world "0.1.9") _ "ab");
    [reflexivity | reflexivity | reflexivity | vm_compute; reflexivity].
Defined.

(** The rooms given as a null, with a single room beside them. *)
Lemma rooms_not_iterable_witness :
  exists w',
    gen_xml null_rooms_job (fresh_world "0.1.9") = (w', Raise TypeError)
    /\ xml w' = append_to_section "properties" bare_property empty_project
    /\ child (xml w') "publishers" = None
    /\ trace w' = trace (fst (_load_global_data (fresh_world "0.1.9"))).
Proof.
  apply (rooms_not_iterable null_rooms_job null_rooms_options
           (fresh_world "0.1.9") _ VNone);
    [reflexivity | reflexivity | reflexivity | by left
    | apply surjective_pairing].
Defined.

(** The nodes of the rooms job. *)
Lemma nodes_have_distinct_tags_witness :
  exists pdefhip hippub,
    last (section_children "properties"
            (xml (fst (gen_xml rooms_job (fresh_world "0.1.9")))))
    = Some pdefhip
    /\ last (section_children "publishers"
               (xml (fst (gen_xml rooms_job (fresh_world "0.1.9")))))
       = Some hippub
    /\ NoDup (tag <$> children pdefhip)
    /\ NoDup (tag <$> children hippub).
Proof.
  apply (nodes_have_distinct_tags rooms_job rooms_options (fresh_world "0.1.9"));
    [reflexivity | reflexivity | vm_compute; reflexivity].
Defined.

(** The rooms job against a registry that reports no version. *)
Lemma unknown_version_is_legacy_witness :
  exists hippub,
    last (section_children "publishers"
            (xml (fst (gen_xml rooms_job (world_with sample_config ∅)))))
    = Some hippub
    /\ child_text hippub "jenkinsUrl" = Some (VStr "http://ci.example.org/")
    /\ child hippub "buildServerUrl" = None
    /\ child hippub "sendAs" = None.
Proof.
  apply (unknown_version_is_legacy rooms_job rooms_options
           (world_with sample_config ∅));
    [reflexivity | reflexivity | reflexivity | vm_compute; reflexivity].
Defined.

(** A second job on the instance that translated the rooms job. *)
Lemma credentials_read_once_witness :
  filter is_config_get
    (trace (fst (gen_xml room_job
                   (fst (gen_xml rooms_job (fresh_world "0.1.9"))))))
  = filter is_config_get (trace (fst (gen_xml rooms_job (fresh_world "0.1.9"))))
  /\ self (fst (gen_xml room_job
                  (fst (gen_xml rooms_job (fresh_world "0.1.9")))))
     = self (fst (gen_xml rooms_job (fresh_world "0.1.9"))).
Proof.
  apply (credentials_read_once rooms_job rooms_options (fresh_world "0.1.9"));
    [reflexivity | reflexivity | vm_compute; reflexivity].
Defined.

(** The rooms job on an empty job definition. *)
Lemma sections_created_in_order_witness :
  exists pdefhip hippub,
    children (xml (fst (gen_xml rooms_job (fresh_world "0.1.9"))))
    = [Element "properties" VNone [pdefhip];
       Element "publishers" VNone [hippub]]
    /\ tag pdefhip = pdefhip_tag /\ tag hippub = hippub_tag.
Proof.
  apply (sections_created_in_order rooms_job rooms_options
           (fresh_world "0.1.9"));
    [reflexivity | reflexivity | reflexivity | reflexivity
    | vm_compute; reflexivity].
Defined.
